(** * text-to-svg: anchor resolution and text metrics

    A shallow embedding of the [TextToSVG] class (TypeScript) and of its
    private helper [parseAnchorOption], followed by the properties of the
    specification that concern them.

    Modelling conventions.
    - A JavaScript string is the sequence of its code units.  [ascii] covers
      the code units below 256; this includes every character that the two
      keyword patterns can match, since without the [u] flag a non-ASCII
      code unit never canonicalises to an ASCII one.
    - Numbers come in two embeddings.  In the main development a
      JavaScript number is an exact rational ([Q]); [==] on numbers is
      [Qeq], rounding, infinities and NaN of IEEE doubles are not modelled,
      and the font's [unitsPerEm] is a positive integer, so that the scale
      [1 / unitsPerEm] is a number.  It carries the statements about
      strings, errors and the store, and those that compare values which
      the code computes in the same way.  In [Module Double] a number is
      an IEEE binary64 double (a primitive float) and the numeric methods
      round as the code does; it carries the statements that relate values
      which the code computes in different ways.
    - An optional property of an object is an [option]; [None] stands for
      both a missing key and the value [undefined], except for [kerning],
      whose key is tested with [in] by the source.
    - A thrown [Error] is the [Throw] constructor of [result].
    - The font ([opentype.Font]) is an external collaborator: a record of
      the fields and methods that the class uses. *)

From Stdlib Require Import QArith Qminmax Qfield Lqa Lia String Ascii List.
From Stdlib Require PrimFloat.
From stdpp Require Import base option gmap strings pretty.
Import ListNotations.

Local Open Scope list_scope.
Local Open Scope string_scope.

(** ** Strings and the keyword patterns *)

Module JS.

(** [Canonicalize] of the regular-expression semantics under the [i] flag
    (no [u] flag): the code unit is upper-cased.  For code units outside
    [a-z] the result is never an ASCII letter different from the code unit
    itself, which is all that a comparison with an ASCII pattern needs. *)
Definition canonicalize (c : ascii) : ascii :=
  let n := nat_of_ascii c in
  if ((97 <=? n) && (n <=? 122))%nat then ascii_of_nat (n - 32) else c.

(** One alternative of the pattern, a literal, tried at the start of [s]:
    the matched text is the prefix of [s] as it is spelled in [s]. *)
Fixpoint matchLiteral (pat s : string) : option string :=
  match pat with
  | EmptyString => Some EmptyString
  | String p pat' =>
      match s with
      | EmptyString => None
      | String c s' =>
          if Ascii.eqb (canonicalize p) (canonicalize c)
          then option_map (String c) (matchLiteral pat' s')
          else None
      end
  end.

(** The alternation [a1|a2|...] at the start of [s]: alternatives are tried
    in the order in which they are written. *)
Fixpoint matchAlternation (alts : list string) (s : string) : option string :=
  match alts with
  | [] => None
  | a :: alts' =>
      match matchLiteral a s with
      | Some m => Some m
      | None => matchAlternation alts' s
      end
  end.

(** The [g] flag: every match, scanning left to right; after a match the
    scan resumes behind it ([skip] counts the code units of the last match
    that are still to be passed over).  The alternatives are non-empty
    literals, so there is no match at the end of the string. *)
Fixpoint matchGlobal (alts : list string) (skip : nat) (s : string) : list string :=
  match s with
  | EmptyString => []
  | String _ s' =>
      match skip with
      | S k => matchGlobal alts k s'
      | O =>
          match matchAlternation alts s with
          | Some m => m :: matchGlobal alts (String.length m - 1) s'
          | None => matchGlobal alts 0 s'
          end
      end
  end.

(** [String.prototype.match] with a global, case-insensitive alternation of
    literals: [null] when there is no match, else the array of matches. *)
Definition String_match (alts : list string) (s : string) : option (list string) :=
  match matchGlobal alts 0 s with
  | [] => None
  | ms => Some ms
  end.

(** [Array.prototype.join]. *)
Fixpoint join (sep : string) (l : list string) : string :=
  match l with
  | [] => EmptyString
  | [s] => s
  | s :: l' => s ++ sep ++ join sep l'
  end.

End JS.

(** ** [parseAnchorOption] *)

Record Anchor := { horizontal : string; vertical : string }.

Definition parseAnchorOption (anchor : string) : Anchor :=
  let matchH := default [] (JS.String_match ["left"; "center"; "right"] anchor) in
  let horizontal := match matchH with [] => "left" | h :: _ => h end in
  let matchV := default [] (JS.String_match ["baseline"; "top"; "bottom"; "middle"] anchor) in
  let vertical := match matchV with [] => "baseline" | v :: _ => v end in
  {| horizontal := horizontal; vertical := vertical |}.

(** ** Numbers, optional properties and exceptions *)

Local Open Scope Q_scope.
Local Open Scope string_scope.

(** [v || d] for an optional number: [undefined] and [0] are falsy. *)
Definition orNum (v : option Q) (d : Q) : Q :=
  match v with
  | Some q => if Qeq_bool q 0 then d else q
  | None => d
  end.


Definition truthyBool (v : option bool) : bool :=
  match v with
  | Some b => b
  | None => false
  end.

(** The outcome of a call that may throw. *)
Inductive result (A : Type) : Type :=
  | Return (a : A)
  | Throw (message : string).
Arguments Return {A} a.
Arguments Throw {A} message.

Definition bind {A B : Type} (r : result A) (k : A -> result B) : result B :=
  match r with
  | Return a => k a
  | Throw e => Throw e
  end.

Notation "x <- r ;; k" := (bind r (fun x => k))
  (at level 100, r at next level, right associativity).

(** ** The font collaborator (opentype.js) *)

Module opentype.

Record Glyph := { index : nat; advanceWidth : option Q }.

(** The object literal that [getD] hands to [Font.getPath]: the three
    keys are always present, their values may be [undefined]. *)
Record RenderOptions := {
  kerning : option bool;
  letterSpacing : option Q;
  tracking : option Q
}.

Record Path := { toPathData : string }.

(** Modelled from the spec: the font handle of opentype.js, which is not
    part of the sources; section 3 gives [unitsPerEm] as an integer
    greater than zero, [ascender] and [descender] in design units, the
    glyph lookup, the kerning lookup and the outline operation. *)
Record Font := {
  unitsPerEm : positive;
  ascender : Q;
  descender : Q;
  stringToGlyphs : string -> list Glyph;
  getKerningValue : Glyph -> Glyph -> Q;
  getPath : string -> Q -> Q -> Q -> RenderOptions -> Path
}.

End opentype.

(** ** Options and metrics *)

Module TextToSVGOptions.

(** [kerning] distinguishes a missing key ([None]) from a key that is
    present with the value [undefined] ([Some None]).  [attributes] maps
    names to values in the order of [Object.keys]. *)
Record t := mk {
  fontSize : option Q;
  letterSpacing : option Q;
  tracking : option Q;
  kerning : option (option bool);
  anchor : option string;
  x : option Q;
  y : option Q;
  attributes : option (list (string * string))
}.

(** The object literal [{}]. *)
Definition empty : t := mk None None None None None None None None.

(** The assignments [options.x = v] and [options.y = v]. *)
Definition set_x (v : option Q) (o : t) : t :=
  mk (fontSize o) (letterSpacing o) (tracking o) (kerning o) (anchor o)
     v (y o) (attributes o).

Definition set_y (v : option Q) (o : t) : t :=
  mk (fontSize o) (letterSpacing o) (tracking o) (kerning o) (anchor o)
     (x o) v (attributes o).

(** [JSON.parse(JSON.stringify(o))]: a new object; a key whose value is
    [undefined] is not serialised, numbers and strings come back as they
    were. *)
Definition jsonCopy (o : t) : t :=
  mk (fontSize o) (letterSpacing o) (tracking o)
     (match kerning o with Some (Some b) => Some (Some b) | _ => None end)
     (anchor o) (x o) (y o) (attributes o).

End TextToSVGOptions.

Module Metrics.

Record t := mk {
  x : Q;
  y : Q;
  baseline : Q;
  width : Q;
  height : Q;
  ascender : Q;
  descender : Q
}.

End Metrics.

Module O := TextToSVGOptions.

(** ** The class [TextToSVG]; [font] is [this.font] *)

(** ['kerning' in options ? options.kerning : true] *)
Definition kerningOption (options : O.t) : option bool :=
  match O.kerning options with
  | Some v => v
  | None => Some true
  end.

Definition unitsPerEm (font : opentype.Font) : Q :=
  inject_Z (Zpos (opentype.unitsPerEm font)).

(** [if (v) { ... v ... } else { ... }] for an optional number [v]: the
    first branch runs with the number when it is truthy. *)
Definition ifTruthy {A : Type} (v : option Q) (yes : Q -> A) (no : A) : A :=
  match v with
  | Some q => if Qeq_bool q 0 then no else yes q
  | None => no
  end.

(** The [for] loop of [getWidth] from glyph [i] on: [glyphs] is the rest
    of the glyph array, starting at [glyphs[i]], and [width] the running
    total; [i < glyphs.length - 1] holds when a next glyph exists. *)
Fixpoint getWidth_loop (font : opentype.Font) (options : O.t)
    (fontSize : Q) (kerning : option bool) (fontScale : Q)
    (glyphs : list opentype.Glyph) (width : Q) : Q :=
  match glyphs with
  | [] => width
  | glyph :: rest =>
      let width :=
        ifTruthy (opentype.advanceWidth glyph)
          (fun advanceWidth => width + advanceWidth * fontScale) width in
      let width :=
        match rest with
        | next :: _ =>
            if truthyBool kerning
            then width + opentype.getKerningValue font glyph next * fontScale
            else width
        | [] => width
        end in
      let width :=
        ifTruthy (O.letterSpacing options)
          (fun letterSpacing => width + letterSpacing * fontSize)
          (ifTruthy (O.tracking options)
             (fun tracking => width + (tracking / 1000) * fontSize)
             width) in
      getWidth_loop font options fontSize kerning fontScale rest width
  end.

Definition getWidth (font : opentype.Font) (text : string) (options : O.t) : Q :=
  let fontSize := orNum (O.fontSize options) 72 in
  let kerning := kerningOption options in
  let fontScale := (1 / unitsPerEm font) * fontSize in
  let glyphs := opentype.stringToGlyphs font text in
  getWidth_loop font options fontSize kerning fontScale glyphs 0.

Definition getHeight (font : opentype.Font) (fontSize : Q) : Q :=
  let fontScale := (1 / unitsPerEm font) * fontSize in
  (opentype.ascender font - opentype.descender font) * fontScale.

Definition getMetrics (font : opentype.Font) (text : string) (options : O.t)
    : result Metrics.t :=
  let fontSize := orNum (O.fontSize options) 72 in
  let anchor := parseAnchorOption (default EmptyString (O.anchor options)) in
  let width := getWidth font text options in
  let height := getHeight font fontSize in
  let fontScale := (1 / unitsPerEm font) * fontSize in
  let ascender := opentype.ascender font * fontScale in
  let descender := opentype.descender font * fontScale in
  let x := orNum (O.x options) 0 in
  x <- (if String.eqb (horizontal anchor) "left" then Return (x - 0)
        else if String.eqb (horizontal anchor) "center" then Return (x - width / 2)
        else if String.eqb (horizontal anchor) "right" then Return (x - width)
        else Throw ("Unknown anchor option: " ++ horizontal anchor)) ;;
  let y := orNum (O.y options) 0 in
  y <- (if String.eqb (vertical anchor) "baseline" then Return (y - ascender)
        else if String.eqb (vertical anchor) "top" then Return (y - 0)
        else if String.eqb (vertical anchor) "middle" then Return (y - height / 2)
        else if String.eqb (vertical anchor) "bottom" then Return (y - height)
        else Throw ("Unknown anchor option: " ++ vertical anchor)) ;;
  let baseline := y + ascender in
  Return (Metrics.mk x y baseline width height ascender descender).

Definition getD (font : opentype.Font) (text : string) (options : O.t)
    : result string :=
  let fontSize := orNum (O.fontSize options) 72 in
  let kerning := kerningOption options in
  let letterSpacing := O.letterSpacing options in
  let tracking := O.tracking options in
  metrics <- getMetrics font text options ;;
  let path :=
    opentype.getPath font text (Metrics.x metrics) (Metrics.baseline metrics)
      fontSize (opentype.Build_RenderOptions kerning letterSpacing tracking) in
  Return (opentype.toPathData path).

(** The double-quote character (code unit 34) and one XML attribute,
    the name followed by the quoted value. *)
Definition quote : string := String "034"%char EmptyString.

Definition attribute (name value : string) : string :=
  name ++ "=" ++ quote ++ value ++ quote.

Definition getPath (font : opentype.Font) (text : string) (options : O.t)
    : result string :=
  let attributes := default [] (O.attributes options) in
  let attributesStr :=
    JS.join " " (map (fun kv => attribute (fst kv) (snd kv)) attributes) in
  d <- getD font text options ;;
  if negb (String.eqb attributesStr EmptyString)
  then Return ("<path " ++ attributesStr ++ " " ++ attribute "d" d ++ "/>")
  else Return ("<path " ++ attribute "d" d ++ "/>").

(** *** The object store

    [getDebugSVG] assigns to properties of [options], so for it options
    objects live in a store and are passed by reference.  The methods
    above only read their argument: they are given the object found at the
    reference.  Nothing in the class writes to an [attributes] object,
    which is kept by value inside its options object. *)

Definition loc := nat.
Abbreviation store := (gmap nat O.t).

Global Instance options_inhabited : Inhabited O.t := populate O.empty.

(** [new]: the object is placed at a reference that is not in use. *)
Definition alloc (o : O.t) (sigma : store) : loc * store :=
  let l := fresh (dom sigma) in (l, <[l := o]> sigma).

Section Rendering.

(** Conversion of a number to a string by a template literal
    ([Number::toString]); it belongs to the language, not to the class. *)
Variable toString : Q -> string.

(** The opening tag shared by [getSVG] and [getDebugSVG]. *)
Definition svgOpen (width height : Q) : string :=
  "<svg " ++ attribute "xmlns" "http://www.w3.org/2000/svg" ++ " "
    ++ attribute "xmlns:xlink" "http://www.w3.org/1999/xlink" ++ " "
    ++ attribute "width" (toString width) ++ " "
    ++ attribute "height" (toString height) ++ ">".

Definition getSVG (font : opentype.Font) (text : string) (options : O.t)
    : result string :=
  metrics <- getMetrics font text options ;;
  let svg := svgOpen (Metrics.width metrics) (Metrics.height metrics) in
  path <- getPath font text options ;;
  let svg := svg ++ path in
  let svg := svg ++ "</svg>" in
  Return svg.

(** [options] is the caller's argument: a reference, or nothing, in which
    case the default parameter value [{}] is created. *)
Definition getDebugSVG (font : opentype.Font) (text : string)
    (options : option loc) (sigma : store) : result string * store :=
  let '(options, sigma) :=
    match options with
    | Some l => (l, sigma)
    | None => alloc O.empty sigma
    end in
  (* options = JSON.parse(JSON.stringify(options)) *)
  let '(options, sigma) := alloc (O.jsonCopy (sigma !!! options)) sigma in
  (* options.x = options.x || 0 ; options.y = options.y || 0 *)
  let sigma :=
    <[options := O.set_x (Some (orNum (O.x (sigma !!! options)) 0)) (sigma !!! options)]> sigma in
  let sigma :=
    <[options := O.set_y (Some (orNum (O.y (sigma !!! options)) 0)) (sigma !!! options)]> sigma in
  match getMetrics font text (sigma !!! options) with
  | Throw e => (Throw e, sigma)
  | Return metrics =>
      let box_width :=
        Qmax (Metrics.x metrics + Metrics.width metrics) 0 - Qmin (Metrics.x metrics) 0 in
      let box_height :=
        Qmax (Metrics.y metrics + Metrics.height metrics) 0 - Qmin (Metrics.y metrics) 0 in
      let origin_x := box_width - Qmax (Metrics.x metrics + Metrics.width metrics) 0 in
      let origin_y := box_height - Qmax (Metrics.y metrics + Metrics.height metrics) 0 in
      (* options.x += origin.x ; options.y += origin.y
         (both properties hold a number since the assignments above) *)
      let sigma :=
        <[options := O.set_x ((fun v => v + origin_x) <$> O.x (sigma !!! options)) (sigma !!! options)]> sigma in
      let sigma :=
        <[options := O.set_y ((fun v => v + origin_y) <$> O.y (sigma !!! options)) (sigma !!! options)]> sigma in
      let svg := svgOpen box_width box_height in
      let svg := svg ++ "<path " ++ attribute "fill" "none" ++ " "
                   ++ attribute "stroke" "red" ++ " " ++ attribute "stroke-width" "1" ++ " "
                   ++ attribute "d" ("M0," ++ toString origin_y ++ "L" ++ toString box_width
                                       ++ "," ++ toString origin_y) ++ "/>" in
      let svg := svg ++ "<path " ++ attribute "fill" "none" ++ " "
                   ++ attribute "stroke" "red" ++ " " ++ attribute "stroke-width" "1" ++ " "
                   ++ attribute "d" ("M" ++ toString origin_x ++ ",0L" ++ toString origin_x
                                       ++ "," ++ toString box_height) ++ "/>" in
      match getPath font text (sigma !!! options) with
      | Throw e => (Throw e, sigma)
      | Return path =>
          let svg := svg ++ path in
          let svg := svg ++ "</svg>" in
          (Return svg, sigma)
      end
  end.

End Rendering.

(** ** Font acquisition: the constructor, [getFont] and the static loaders *)

Module TextToSVG.

(** An instance holds the font it was constructed with. *)
Record t := new { font : opentype.Font }.

Definition getFont (this : t) : opentype.Font := font this.

(** [loadSync] and [parse]: the font is read by opentype.js, which may
    throw; [read] is [opentype.loadSync] or [opentype.parse]. *)
Definition loadSync {A : Type} (read : A -> result opentype.Font) (file : A) : result t :=
  font <- read file ;;
  Return (new font).

Definition parse {A : Type} (read : A -> result opentype.Font) (arrayBuffer : A) : result t :=
  font <- read arrayBuffer ;;
  Return (new font).

(** How a promise is settled. *)
Inductive settled : Type :=
  | Resolved (value : t)
  | Rejected (reason : string).

(** The callback that [load] gives to [opentype.load]: [err] is [None]
    when it is falsy, [font] is [None] when it is [undefined]. *)
Definition load_callback (err : option string) (font : option opentype.Font) : settled :=
  match err with
  | Some e => Rejected e
  | None =>
      match font with
      | None => Rejected "Font not found"
      | Some font => Resolved (new font)
      end
  end.

(** [load]: [fetch] stands for [opentype.load], which calls the callback
    once, with what it found at [url]. *)
Definition load (fetch : string -> option string * option opentype.Font) (url : string)
    : settled :=
  load_callback (fst (fetch url)) (snd (fetch url)).

End TextToSVG.

(** ** The numeric methods on IEEE doubles *)

Module Double.

Import PrimFloat.
Local Open Scope float_scope.

(** Truthiness of a number: [0], [-0] and [NaN] are falsy. *)
Definition isNaN (v : float) : bool := negb (PrimFloat.eqb v v).

Definition truthy (v : float) : bool := negb (PrimFloat.eqb v 0 || isNaN v).

(** [v || d] for an optional number. *)
Definition orNum (v : option float) (d : float) : float :=
  match v with
  | Some q => if truthy q then q else d
  | None => d
  end.

(** [if (v) { ... v ... } else { ... }] for an optional number [v]. *)
Definition ifTruthy {A : Type} (v : option float) (yes : float -> A) (no : A) : A :=
  match v with
  | Some q => if truthy q then yes q else no
  | None => no
  end.

Record Glyph := { index : nat; advanceWidth : option float }.

(** Modelled from the spec: the font handle of opentype.js, as far as
    [getWidth], [getHeight] and [getMetrics] use it. *)
Record Font := {
  unitsPerEm : float;
  ascender : float;
  descender : float;
  stringToGlyphs : string -> list Glyph;
  getKerningValue : Glyph -> Glyph -> float
}.

Module Options.

Record t := mk {
  fontSize : option float;
  letterSpacing : option float;
  tracking : option float;
  kerning : option (option bool);
  anchor : option string;
  x : option float;
  y : option float;
  attributes : option (list (string * string))
}.

Definition empty : t := mk None None None None None None None None.

End Options.

Module Metrics.

Record t := mk {
  x : float;
  y : float;
  baseline : float;
  width : float;
  height : float;
  ascender : float;
  descender : float
}.

End Metrics.

(** ['kerning' in options ? options.kerning : true] *)
Definition kerningOption (options : Options.t) : option bool :=
  match Options.kerning options with
  | Some v => v
  | None => Some true
  end.

(** The [for] loop of [getWidth] from glyph [i] on; every [+=] rounds. *)
Fixpoint getWidth_loop (font : Font) (options : Options.t)
    (fontSize : float) (kerning : option bool) (fontScale : float)
    (glyphs : list Glyph) (width : float) : float :=
  match glyphs with
  | [] => width
  | glyph :: rest =>
      let width :=
        ifTruthy (advanceWidth glyph)
          (fun advanceWidth => width + advanceWidth * fontScale) width in
      let width :=
        match rest with
        | next :: _ =>
            if truthyBool kerning
            then width + getKerningValue font glyph next * fontScale
            else width
        | [] => width
        end in
      let width :=
        ifTruthy (Options.letterSpacing options)
          (fun letterSpacing => width + letterSpacing * fontSize)
          (ifTruthy (Options.tracking options)
             (fun tracking => width + (tracking / 1000) * fontSize)
             width) in
      getWidth_loop font options fontSize kerning fontScale rest width
  end.

Definition getWidth (font : Font) (text : string) (options : Options.t) : float :=
  let fontSize := orNum (Options.fontSize options) 72 in
  let kerning := kerningOption options in
  let fontScale := (1 / unitsPerEm font) * fontSize in
  let glyphs := stringToGlyphs font text in
  getWidth_loop font options fontSize kerning fontScale glyphs 0.

Definition getHeight (font : Font) (fontSize : float) : float :=
  let fontScale := (1 / unitsPerEm font) * fontSize in
  (ascender font - descender font) * fontScale.

Definition getMetrics (font : Font) (text : string) (options : Options.t)
    : result Metrics.t :=
  let fontSize := orNum (Options.fontSize options) 72 in
  let anchor := parseAnchorOption (default EmptyString (Options.anchor options)) in
  let width := getWidth font text options in
  let height := getHeight font fontSize in
  let fontScale := (1 / unitsPerEm font) * fontSize in
  let ascender := ascender font * fontScale in
  let descender := descender font * fontScale in
  let x := orNum (Options.x options) 0 in
  x <- (if String.eqb (horizontal anchor) "left" then Return (x - 0)
        else if String.eqb (horizontal anchor) "center" then Return (x - width / 2)
        else if String.eqb (horizontal anchor) "right" then Return (x - width)
        else Throw ("Unknown anchor option: " ++ horizontal anchor)) ;;
  let y := orNum (Options.y options) 0 in
  y <- (if String.eqb (vertical anchor) "baseline" then Return (y - ascender)
        else if String.eqb (vertical anchor) "top" then Return (y - 0)
        else if String.eqb (vertical anchor) "middle" then Return (y - height / 2)
        else if String.eqb (vertical anchor) "bottom" then Return (y - height)
        else Throw ("Unknown anchor option: " ++ vertical anchor)) ;;
  let baseline := y + ascender in
  Return (Metrics.mk x y baseline width height ascender descender).

(** *** Notions used in the statements *)

(** What the loop of [getWidth] adds to the running total, in the order
    in which it adds it: for each glyph its scaled advance (when truthy),
    then, when kerning is on and a next glyph exists, the scaled kerning
    value of the pair, then the spacing amount (when there is one). *)
Inductive addend : Type :=
  | Advance (amount : float)
  | Kerning (amount : float)
  | Spacing (amount : float).

Definition amount (a : addend) : float :=
  match a with
  | Advance v => v
  | Kerning v => v
  | Spacing v => v
  end.

Definition isKerning (a : addend) : bool :=
  match a with
  | Kerning _ => true
  | _ => false
  end.

Fixpoint addends (font : Font) (letterSpacing tracking : option float)
    (fontSize fontScale : float) (kerning : bool) (glyphs : list Glyph)
    : list addend :=
  match glyphs with
  | [] => []
  | glyph :: rest =>
      (ifTruthy (advanceWidth glyph) (fun a => [Advance (a * fontScale)]) []
       ++ match rest with
          | next :: _ =>
              if kerning
              then [Kerning (getKerningValue font glyph next * fontScale)]
              else []
          | [] => []
          end
       ++ ifTruthy letterSpacing (fun ls => [Spacing (ls * fontSize)])
            (ifTruthy tracking (fun tr => [Spacing ((tr / 1000) * fontSize)]) [])
       ++ addends font letterSpacing tracking fontSize fontScale kerning rest)%list
  end.

(** The running total: the addends are added one by one, from the left,
    each addition rounding. *)
Definition runningTotal (start : float) (l : list addend) : float :=
  fold_left (fun width a => width + amount a) l start.

(** The consecutive pairs [(i, i+1)] of a glyph sequence. *)
Fixpoint consecutivePairs (glyphs : list Glyph) : list (Glyph * Glyph) :=
  match glyphs with
  | glyph :: ((next :: _) as rest) => (glyph, next) :: consecutivePairs rest
  | _ => []
  end.

(** *** A font for the examples: the sample font on doubles *)

Definition sampleGlyph (c : ascii) : Glyph :=
  {| index := nat_of_ascii c; advanceWidth := Some 600 |}.

Definition sampleFont : Font :=
  {| unitsPerEm := 1000;
     ascender := 800;
     descender := -200;
     stringToGlyphs := fun text => map sampleGlyph (list_ascii_of_string text);
     getKerningValue := fun g1 g2 =>
       if ((index g1 =? 65) && (index g2 =? 86))%nat then -50 else 0 |}.

End Double.

(** ** Notions used in the statements *)

(** The anchor keywords that the two [switch] statements of [getMetrics]
    have a [case] for. *)
Definition horizontalKeywords : list string := ["left"; "center"; "right"].
Definition verticalKeywords : list string := ["baseline"; "top"; "middle"; "bottom"].

Definition recognized (a : Anchor) : bool :=
  existsb (String.eqb (horizontal a)) horizontalKeywords
  && existsb (String.eqb (vertical a)) verticalKeywords.

(** No code unit of [s] is one of the capital letters [A]..[Z]. *)
Definition isCapital (c : ascii) : bool :=
  ((65 <=? nat_of_ascii c) && (nat_of_ascii c <=? 90))%nat.

Fixpoint capitalFree (s : string) : bool :=
  match s with
  | EmptyString => true
  | String c s' => negb (isCapital c) && capitalFree s'
  end.

(** [String.prototype.toLowerCase] on the letters [A]..[Z]; the source
    does not call it, it is what the statements about spelling use. *)
Definition lowerCaseUnit (c : ascii) : ascii :=
  if isCapital c then ascii_of_nat (nat_of_ascii c + 32) else c.

Fixpoint toLowerCase (s : string) : string :=
  match s with
  | EmptyString => EmptyString
  | String c s' => String (lowerCaseUnit c) (toLowerCase s')
  end.

(** The first keyword occurrence, scanning the positions of [s] from left
    to right: at each position the alternatives are tried in order. *)
Fixpoint firstOccurrence (alts : list string) (s : string) : option string :=
  match s with
  | EmptyString => None
  | String _ s' =>
      match JS.matchAlternation alts s with
      | Some m => Some m
      | None => firstOccurrence alts s'
      end
  end.

(** Every code unit of [s] is one of the small letters [a]..[z], as in the
    alternatives of the two patterns. *)
Fixpoint smallLetters (s : string) : bool :=
  match s with
  | EmptyString => true
  | String c s' =>
      ((97 <=? nat_of_ascii c) && (nat_of_ascii c <=? 122))%nat && smallLetters s'
  end.

(** The sum of the advance widths of a glyph sequence (an absent advance
    counts for nothing), and the sum of the font's kerning values over its
    consecutive pairs [(i, i+1)], both in design units. *)
Fixpoint advanceSum (glyphs : list opentype.Glyph) : Q :=
  match glyphs with
  | [] => 0
  | glyph :: rest => orNum (opentype.advanceWidth glyph) 0 + advanceSum rest
  end.

Fixpoint kerningSum (font : opentype.Font) (glyphs : list opentype.Glyph) : Q :=
  match glyphs with
  | glyph :: ((next :: _) as rest) =>
      opentype.getKerningValue font glyph next + kerningSum font rest
  | _ => 0
  end.

(** What the spacing rule adds for one glyph: [letterSpacing * fontSize]
    when [letterSpacing] is truthy, else [(tracking / 1000) * fontSize]
    when [tracking] is truthy, else nothing. *)
Definition spacingPerGlyph (letterSpacing tracking : option Q) (fontSize : Q) : Q :=
  match letterSpacing, tracking with
  | Some ls, Some tr =>
      if negb (Qeq_bool ls 0) then ls * fontSize
      else if negb (Qeq_bool tr 0) then (tr / 1000) * fontSize else 0
  | Some ls, None => if negb (Qeq_bool ls 0) then ls * fontSize else 0
  | None, Some tr => if negb (Qeq_bool tr 0) then (tr / 1000) * fontSize else 0
  | None, None => 0
  end.

(** The number of glyphs, as a number. *)
Definition glyphCount (glyphs : list opentype.Glyph) : Q :=
  inject_Z (Z.of_nat (List.length glyphs)).

(** A font collaborator that reads the [kerning] flag it is given by its
    truthiness, so that [undefined] and [false] are the same to it. *)
Definition readsKerningByTruthiness (font : opentype.Font) : Prop :=
  forall text x y fontSize letterSpacing tracking,
    opentype.getPath font text x y fontSize
      (opentype.Build_RenderOptions None letterSpacing tracking)
    = opentype.getPath font text x y fontSize
      (opentype.Build_RenderOptions (Some false) letterSpacing tracking).

(** By how much the resolved keywords move the origin: the amounts that
    the two [switch] statements of [getMetrics] subtract. *)
Definition horizontalShift (keyword : string) (width : Q) : Q :=
  if String.eqb keyword "center" then width / 2
  else if String.eqb keyword "right" then width
  else 0.

Definition verticalShift (keyword : string) (ascender height : Q) : Q :=
  if String.eqb keyword "baseline" then ascender
  else if String.eqb keyword "middle" then height / 2
  else if String.eqb keyword "bottom" then height
  else 0.

(** The message of the error that a resolved pair leads to, if any: the
    horizontal keyword is looked at first. *)
Definition anchorError (a : Anchor) : option string :=
  if negb (existsb (String.eqb (horizontal a)) horizontalKeywords)
  then Some ("Unknown anchor option: " ++ horizontal a)
  else if negb (existsb (String.eqb (vertical a)) verticalKeywords)
  then Some ("Unknown anchor option: " ++ vertical a)
  else None.

(** The stages of [getDebugSVG].  [debugArgument] is the object that the
    call is about (the default [{}] when no reference is passed);
    [debugOptions] is its copy once x and y have been made numbers;
    [boxWidth], [boxHeight], [originX] and [originY] are the [box] and the
    [origin] computed from the metrics; [debugShifted] is the copy once x
    and y have been shifted by the origin. *)
Definition debugArgument (options : option loc) (sigma : gmap nat O.t) : O.t :=
  match options with
  | Some l => sigma !!! l
  | None => O.empty
  end.

Definition debugOptions (copy : O.t) : O.t :=
  O.set_y (Some (orNum (O.y copy) 0)) (O.set_x (Some (orNum (O.x copy) 0)) copy).

Definition boxWidth (m : Metrics.t) : Q :=
  Qmax (Metrics.x m + Metrics.width m) 0 - Qmin (Metrics.x m) 0.

Definition boxHeight (m : Metrics.t) : Q :=
  Qmax (Metrics.y m + Metrics.height m) 0 - Qmin (Metrics.y m) 0.

Definition originX (m : Metrics.t) : Q :=
  boxWidth m - Qmax (Metrics.x m + Metrics.width m) 0.

Definition originY (m : Metrics.t) : Q :=
  boxHeight m - Qmax (Metrics.y m + Metrics.height m) 0.

Definition debugShifted (copy : O.t) (m : Metrics.t) : O.t :=
  O.set_y (Some (orNum (O.y copy) 0 + originY m))
    (O.set_x (Some (orNum (O.x copy) 0 + originX m)) (debugOptions copy)).

(** The two guide lines that [getDebugSVG] draws through the origin. *)
Definition guideLines (toString : Q -> string) (m : Metrics.t) : string :=
  ("<path " ++ attribute "fill" "none" ++ " "
     ++ attribute "stroke" "red" ++ " " ++ attribute "stroke-width" "1" ++ " "
     ++ attribute "d" ("M0," ++ toString (originY m) ++ "L" ++ toString (boxWidth m)
                         ++ "," ++ toString (originY m)) ++ "/>")
  ++ ("<path " ++ attribute "fill" "none" ++ " "
        ++ attribute "stroke" "red" ++ " " ++ attribute "stroke-width" "1" ++ " "
        ++ attribute "d" ("M" ++ toString (originX m) ++ ",0L" ++ toString (originX m)
                            ++ "," ++ toString (boxHeight m)) ++ "/>").

(** What [getDebugSVG] returns and what it leaves at the reference of the
    copy, in terms of the stages of the copy. *)
Definition debugOutcome (toString : Q -> string) font text (copy : O.t)
    (out : result string * gmap nat O.t) (c : loc) : Prop :=
  match getMetrics font text (debugOptions copy) with
  | Throw e => out.1 = Throw e /\ out.2 !! c = Some (debugOptions copy)
  | Return m =>
      out.2 !! c = Some (debugShifted copy m)
      /\ match getPath font text (debugShifted copy m) with
         | Throw e => out.1 = Throw e
         | Return path =>
             out.1 = Return (svgOpen toString (boxWidth m) (boxHeight m)
                               ++ guideLines toString m ++ path ++ "</svg>")
         end
  end.

(** ** A font and a number printer for the examples *)

(** Every character has a glyph of advance 600, the pair A V is kerned by
    -50 design units, and the outline operation records whether it was
    asked to kern. *)
Definition sampleGlyph (c : ascii) : opentype.Glyph :=
  {| opentype.index := nat_of_ascii c; opentype.advanceWidth := Some 600 |}.

Definition sampleFont : opentype.Font :=
  {| opentype.unitsPerEm := 1000;
     opentype.ascender := 800;
     opentype.descender := -200;
     opentype.stringToGlyphs := fun text => map sampleGlyph (list_ascii_of_string text);
     opentype.getKerningValue := fun g1 g2 =>
       if ((opentype.index g1 =? 65) && (opentype.index g2 =? 86))%nat
       then -50 else 0;
     opentype.getPath := fun text _ _ _ renderOptions =>
       {| opentype.toPathData :=
            if truthyBool (opentype.kerning renderOptions)
            then "kerned:" ++ text else "plain:" ++ text |} |}.

(** The sample font with another outline operation: it applies its own
    default, kerning on, when the flag it is given is [undefined]. *)
Definition defaultingFont : opentype.Font :=
  {| opentype.unitsPerEm := opentype.unitsPerEm sampleFont;
     opentype.ascender := opentype.ascender sampleFont;
     opentype.descender := opentype.descender sampleFont;
     opentype.stringToGlyphs := opentype.stringToGlyphs sampleFont;
     opentype.getKerningValue := opentype.getKerningValue sampleFont;
     opentype.getPath := fun text _ _ _ renderOptions =>
       {| opentype.toPathData :=
            if default true (opentype.kerning renderOptions)
            then "kerned:" ++ text else "plain:" ++ text |} |}.

(** An options object of a caller. *)
Definition callerOptions : O.t :=
  O.mk (Some 100) None None None (Some "center middle") (Some 10) None None.

(** Decimal notation of a number, cut after 17 fractional digits. *)
Definition digits (z : Z) : string := pretty (Z.to_N z).

Fixpoint fractionDigits (fuel : nat) (r d : Z) : string :=
  match fuel with
  | O => EmptyString
  | S fuel' =>
      if (r =? 0)%Z then EmptyString
      else digits (10 * r / d) ++ fractionDigits fuel' ((10 * r) mod d) d
  end.

Definition decimalString (q : Q) : string :=
  let n := Z.abs (Qnum q) in
  let d := Zpos (Qden q) in
  (if (Qnum q <? 0)%Z then "-" else EmptyString)
    ++ digits (n / d)
    ++ (if (n mod d =? 0)%Z then EmptyString else "." ++ fractionDigits 17 (n mod d) d).

(** * Properties *)

(** ** Worked examples *)

Example parse_examples :
  parseAnchorOption EmptyString = {| horizontal := "left"; vertical := "baseline" |} /\
  parseAnchorOption "right middle" = {| horizontal := "right"; vertical := "middle" |} /\
  parseAnchorOption "rightmiddle" = {| horizontal := "right"; vertical := "middle" |} /\
  parseAnchorOption "top center left" = {| horizontal := "center"; vertical := "top" |} /\
  parseAnchorOption "xx bottom RiGhT" = {| horizontal := "RiGhT"; vertical := "bottom" |}.
Proof. repeat split; reflexivity. Qed.

Example decimalString_examples :
  decimalString 0 = "0" /\ decimalString (432 # 10) = "43.2" /\ decimalString (-5) = "-5".
Proof. repeat split; vm_compute; reflexivity. Qed.

Example sampleFont_width :
  getWidth sampleFont "AV" (O.mk (Some 100) None None None None None None None) == 115 /\
  getWidth sampleFont "AV" (O.mk (Some 100) None None (Some (Some false)) None None None None) == 120.
Proof. split; vm_compute; reflexivity. Qed.

Example sampleFont_height : getHeight sampleFont 100 == 100.
Proof. vm_compute. reflexivity. Qed.

(** ** The anchor parser *)

(** A small letter of a pattern matches, besides itself, only its capital. *)
Lemma canonicalize_small p c :
  (97 <= nat_of_ascii p <= 122)%nat ->
  isCapital c = false ->
  JS.canonicalize p = JS.canonicalize c ->
  c = p.
Proof.
  intros Hp Hc. unfold JS.canonicalize, isCapital in *.
  assert (Hlt := nat_ascii_bounded c).
  destruct ((97 <=? nat_of_ascii p)%nat && (nat_of_ascii p <=? 122)%nat) eqn:Ep;
    [|apply andb_false_iff in Ep;
      destruct Ep as [Ep|Ep]; apply Nat.leb_gt in Ep; lia].
  destruct ((97 <=? nat_of_ascii c)%nat && (nat_of_ascii c <=? 122)%nat) eqn:Ec.
  - apply andb_true_iff in Ec. destruct Ec as [Ec1 Ec2].
    apply Nat.leb_le in Ec1, Ec2. intros E.
    apply (f_equal nat_of_ascii) in E.
    rewrite !nat_ascii_embedding in E by lia.
    rewrite <- (ascii_nat_embedding c), <- (ascii_nat_embedding p).
    f_equal. lia.
  - intros E. apply (f_equal nat_of_ascii) in E.
    rewrite nat_ascii_embedding in E by lia.
    apply andb_false_iff in Hc.
    destruct Hc as [Hc|Hc]; apply Nat.leb_gt in Hc; lia.
Qed.

Lemma matchLiteral_capitalFree pat : forall s m,
  smallLetters pat = true ->
  capitalFree s = true ->
  JS.matchLiteral pat s = Some m ->
  m = pat.
Proof.
  induction pat as [|p pat IH]; intros s m Hpat Hs H; cbn [JS.matchLiteral] in H.
  - congruence.
  - destruct s as [|c s]; [discriminate|].
    cbn [smallLetters capitalFree] in Hpat, Hs.
    apply andb_true_iff in Hpat. destruct Hpat as [Hp Hpat].
    apply andb_true_iff in Hp. destruct Hp as [Hp1 Hp2].
    apply Nat.leb_le in Hp1, Hp2.
    apply andb_true_iff in Hs. destruct Hs as [Hc Hs].
    apply negb_true_iff in Hc.
    destruct (Ascii.eqb (JS.canonicalize p) (JS.canonicalize c)) eqn:E; [|discriminate].
    apply Ascii.eqb_eq in E. apply canonicalize_small in E; [|lia|assumption].
    destruct (JS.matchLiteral pat s) as [m'|] eqn:Em; [|discriminate].
    cbn in H. injection H as <-. subst c. f_equal. eapply IH; eassumption.
Qed.

Lemma matchAlternation_capitalFree alts : forall s m,
  forallb smallLetters alts = true ->
  capitalFree s = true ->
  JS.matchAlternation alts s = Some m ->
  In m alts.
Proof.
  induction alts as [|a alts IH]; intros s m Halts Hs H; cbn [JS.matchAlternation] in H; [discriminate|].
  cbn [forallb] in Halts. apply andb_true_iff in Halts. destruct Halts as [Ha Halts].
  destruct (JS.matchLiteral a s) as [m'|] eqn:Em.
  - injection H as <-. left. symmetry. eapply matchLiteral_capitalFree; eassumption.
  - right. eapply IH; eassumption.
Qed.

Lemma matchGlobal_capitalFree alts s : forall skip m,
  forallb smallLetters alts = true ->
  capitalFree s = true ->
  In m (JS.matchGlobal alts skip s) ->
  In m alts.
Proof.
  induction s as [|c s IH]; intros skip m Halts Hs H; [destruct H|].
  assert (Hs' : capitalFree s = true).
  { cbn [capitalFree] in Hs. apply andb_true_iff in Hs. tauto. }
  cbn [JS.matchGlobal] in H. destruct skip as [|k].
  - destruct (JS.matchAlternation alts (String c s)) as [m'|] eqn:Em.
    + destruct H as [<-|H].
      * apply (matchAlternation_capitalFree alts (String c s)); assumption.
      * eapply IH; eassumption.
    + eapply IH; eassumption.
  - eapply IH; eassumption.
Qed.

(** An anchor string without capital letters resolves to keywords that the
    [switch] statements of [getMetrics] know. *)
Lemma capitalFree_recognized anchor :
  capitalFree anchor = true -> recognized (parseAnchorOption anchor) = true.
Proof.
  intros Hs. unfold parseAnchorOption, recognized, JS.String_match.
  cbn [horizontal vertical]. apply andb_true_iff. split.
  - destruct (JS.matchGlobal ["left"; "center"; "right"] 0 anchor) as [|h hs] eqn:E;
      [reflexivity|]. cbn [default].
    assert (Hin : In h ["left"; "center"; "right"]).
    { eapply matchGlobal_capitalFree with (skip := 0%nat); [reflexivity|exact Hs|].
      rewrite E. left. reflexivity. }
    cbn in Hin. destruct Hin as [<-|[<-|[<-|[]]]]; reflexivity.
  - destruct (JS.matchGlobal ["baseline"; "top"; "bottom"; "middle"] 0 anchor)
      as [|v vs] eqn:E; [reflexivity|]. cbn [default].
    assert (Hin : In v ["baseline"; "top"; "bottom"; "middle"]).
    { eapply matchGlobal_capitalFree with (skip := 0%nat); [reflexivity|exact Hs|].
      rewrite E. left. reflexivity. }
    cbn in Hin. destruct Hin as [<-|[<-|[<-|[<-|[]]]]]; reflexivity.
Qed.

(** The first element of the array of matches is the first occurrence. *)
Lemma matchGlobal_head alts s :
  head (JS.matchGlobal alts 0 s) = firstOccurrence alts s.
Proof.
  induction s as [|c s IH]; [reflexivity|].
  cbn [JS.matchGlobal firstOccurrence].
  destruct (JS.matchAlternation alts (String c s)); [reflexivity|exact IH].
Qed.

(** The two resolved keywords are the first occurrences, with the
    defaults [left] and [baseline] when there is none. *)
Lemma parseAnchorOption_first_occurrence anchor :
  horizontal (parseAnchorOption anchor)
  = default "left" (firstOccurrence ["left"; "center"; "right"] anchor)
  /\ vertical (parseAnchorOption anchor)
     = default "baseline" (firstOccurrence ["baseline"; "top"; "bottom"; "middle"] anchor).
Proof.
  unfold parseAnchorOption, JS.String_match. cbn [horizontal vertical].
  rewrite <- !matchGlobal_head.
  split; destruct (JS.matchGlobal _ 0 anchor); reflexivity.
Qed.

(** What matches a small letter of a pattern is that letter once it is
    lower-cased. *)
Lemma canonicalize_lowerCaseUnit p c :
  (97 <= nat_of_ascii p <= 122)%nat ->
  JS.canonicalize p = JS.canonicalize c ->
  lowerCaseUnit c = p.
Proof.
  intros Hp E. destruct (isCapital c) eqn:Hc.
  - unfold lowerCaseUnit. rewrite Hc.
    unfold JS.canonicalize, isCapital in *.
    apply andb_true_iff in Hc. destruct Hc as [Hc1 Hc2].
    apply Nat.leb_le in Hc1, Hc2.
    replace ((97 <=? nat_of_ascii c)%nat) with false in E
      by (symmetry; apply Nat.leb_gt; lia).
    replace ((97 <=? nat_of_ascii p)%nat) with true in E
      by (symmetry; apply Nat.leb_le; lia).
    replace ((nat_of_ascii p <=? 122)%nat) with true in E
      by (symmetry; apply Nat.leb_le; lia).
    cbn [andb] in E. subst c.
    rewrite nat_ascii_embedding in * by lia.
    rewrite <- (ascii_nat_embedding p) at 2. f_equal. lia.
  - unfold lowerCaseUnit. rewrite Hc. apply canonicalize_small; assumption.
Qed.

Lemma matchLiteral_toLowerCase pat : forall s m,
  smallLetters pat = true ->
  JS.matchLiteral pat s = Some m ->
  toLowerCase m = pat.
Proof.
  induction pat as [|p pat IH]; intros s m Hpat H; cbn [JS.matchLiteral] in H.
  - injection H as <-. reflexivity.
  - destruct s as [|c s]; [discriminate|].
    cbn [smallLetters] in Hpat.
    apply andb_true_iff in Hpat. destruct Hpat as [Hp Hpat].
    apply andb_true_iff in Hp. destruct Hp as [Hp1 Hp2].
    apply Nat.leb_le in Hp1, Hp2.
    destruct (Ascii.eqb (JS.canonicalize p) (JS.canonicalize c)) eqn:E; [|discriminate].
    apply Ascii.eqb_eq in E. apply canonicalize_lowerCaseUnit in E; [|lia].
    destruct (JS.matchLiteral pat s) as [m'|] eqn:Em; [|discriminate].
    cbn in H. injection H as <-. cbn [toLowerCase]. rewrite E. f_equal.
    eapply IH; eassumption.
Qed.

Lemma firstOccurrence_toLowerCase alts s : forall m,
  forallb smallLetters alts = true ->
  firstOccurrence alts s = Some m ->
  In (toLowerCase m) alts.
Proof.
  assert (alternation : forall alts' s' m',
    forallb smallLetters alts' = true ->
    JS.matchAlternation alts' s' = Some m' -> In (toLowerCase m') alts').
  { clear. induction alts' as [|a alts' IH]; intros s' m' Halts H;
      cbn [JS.matchAlternation] in H; [discriminate|].
    cbn [forallb] in Halts. apply andb_true_iff in Halts. destruct Halts as [Ha Halts].
    destruct (JS.matchLiteral a s') as [m''|] eqn:Em.
    - injection H as <-. left. symmetry. eapply matchLiteral_toLowerCase; eassumption.
    - right. eapply IH; eassumption. }
  induction s as [|c s IH]; intros m Halts H; [discriminate|].
  cbn [firstOccurrence] in H.
  destruct (JS.matchAlternation alts (String c s)) as [m'|] eqn:Em.
  - injection H as <-. eapply alternation; eassumption.
  - apply IH; assumption.
Qed.

(** Whatever the anchor string is, the resolved keywords are, up to the
    case of their letters, keywords that [getMetrics] has a [case] for:
    lower-casing them is all that is missing for it to return. *)
Lemma lowered_keywords_recognized anchor :
  recognized
    {| horizontal := toLowerCase (horizontal (parseAnchorOption anchor));
       vertical := toLowerCase (vertical (parseAnchorOption anchor)) |} = true.
Proof.
  destruct (parseAnchorOption_first_occurrence anchor) as [-> ->].
  unfold recognized. cbn [horizontal vertical]. apply andb_true_iff. split.
  - destruct (firstOccurrence ["left"; "center"; "right"] anchor) as [h|] eqn:E;
      [|reflexivity]. cbn [from_option id].
    apply firstOccurrence_toLowerCase in E; [|reflexivity].
    cbn in E. destruct E as [<-|[<-|[<-|[]]]]; reflexivity.
  - destruct (firstOccurrence ["baseline"; "top"; "bottom"; "middle"] anchor)
      as [v|] eqn:E; [|reflexivity]. cbn [from_option id].
    apply firstOccurrence_toLowerCase in E; [|reflexivity].
    cbn in E. destruct E as [<-|[<-|[<-|[<-|[]]]]]; reflexivity.
Qed.

(** C2: the resolved pair follows the letter case of the input.  The pair
    resolved for "right middle" is the one resolved for "rightmiddle", but
    the keywords come back as they are spelled in the anchor string: for
    "RIGHT MIDDLE" the pair is (RIGHT, MIDDLE), which is not the pair
    resolved for "right middle". *)
Theorem parseAnchorOption_keeps_spelling :
  parseAnchorOption "right middle" = {| horizontal := "right"; vertical := "middle" |}
  /\ parseAnchorOption "rightmiddle" = parseAnchorOption "right middle"
  /\ parseAnchorOption "RIGHT MIDDLE" = {| horizontal := "RIGHT"; vertical := "MIDDLE" |}
  /\ parseAnchorOption "RIGHT MIDDLE" <> parseAnchorOption "right middle".
Proof. repeat split. vm_compute. discriminate. Qed.

(** ** The width loop in closed form *)

Lemma glyphCount_cons glyph rest :
  glyphCount (glyph :: rest) == glyphCount rest + 1.
Proof.
  unfold glyphCount. cbn [List.length].
  rewrite Nat2Z.inj_succ, <- Z.add_1_r, inject_Z_plus. reflexivity.
Qed.

Lemma getWidth_loop_closed font options fontSize kerning fontScale glyphs width :
  getWidth_loop font options fontSize kerning fontScale glyphs width
  == width + advanceSum glyphs * fontScale
     + (if truthyBool kerning then kerningSum font glyphs * fontScale else 0)
     + glyphCount glyphs
       * spacingPerGlyph (O.letterSpacing options) (O.tracking options) fontSize.
Proof.
  revert width. induction glyphs as [|glyph rest IH]; intros width.
  - cbn [getWidth_loop advanceSum kerningSum].
    change (glyphCount []) with 0. destruct (truthyBool kerning); ring.
  - cbn [getWidth_loop]. rewrite IH, glyphCount_cons. clear IH.
    unfold ifTruthy, spacingPerGlyph. cbn [advanceSum].
    destruct (opentype.advanceWidth glyph) as [a|]; cbn [orNum];
      [destruct (Qeq_bool a 0)|];
      (destruct (O.letterSpacing options) as [ls|];
         [destruct (Qeq_bool ls 0)|]);
      (destruct (O.tracking options) as [tr|];
         [destruct (Qeq_bool tr 0)|]);
      destruct rest as [|next rest']; destruct (truthyBool kerning);
      cbn [negb kerningSum]; unfold Qdiv; ring.
Qed.

Lemma unitsPerEm_nonzero font : ~ unitsPerEm font == 0.
Proof. unfold unitsPerEm, Qeq. cbn. lia. Qed.


(** [getWidth] in closed form: advances and, when enabled, kerning values,
    both scaled to pixels, plus one spacing amount per glyph. *)
Lemma getWidth_closed font text options :
  getWidth font text options
  == advanceSum (opentype.stringToGlyphs font text)
       * ((1 / unitsPerEm font) * orNum (O.fontSize options) 72)
     + (if truthyBool (kerningOption options)
        then kerningSum font (opentype.stringToGlyphs font text)
             * ((1 / unitsPerEm font) * orNum (O.fontSize options) 72)
        else 0)
     + glyphCount (opentype.stringToGlyphs font text)
       * spacingPerGlyph (O.letterSpacing options) (O.tracking options)
           (orNum (O.fontSize options) 72).
Proof. unfold getWidth. rewrite getWidth_loop_closed. ring. Qed.

(** [getWidth] reads four things of its options: the effective font size,
    the kerning flag, letterSpacing and tracking. *)
Lemma getWidth_loop_reads
    font options options' fontSize kerning kerning' fontScale glyphs width :
  truthyBool kerning = truthyBool kerning' ->
  O.letterSpacing options = O.letterSpacing options' ->
  O.tracking options = O.tracking options' ->
  getWidth_loop font options fontSize kerning fontScale glyphs width
  = getWidth_loop font options' fontSize kerning' fontScale glyphs width.
Proof.
  intros Hk Hls Htr. revert width.
  induction glyphs as [|glyph rest IH]; intros width; [reflexivity|].
  cbn [getWidth_loop]. rewrite Hk, Hls, Htr. apply IH.
Qed.

Lemma getWidth_reads font text options options' :
  orNum (O.fontSize options) 72 = orNum (O.fontSize options') 72 ->
  truthyBool (kerningOption options) = truthyBool (kerningOption options') ->
  O.letterSpacing options = O.letterSpacing options' ->
  O.tracking options = O.tracking options' ->
  getWidth font text options = getWidth font text options'.
Proof.
  intros Hfs Hk Hls Htr. unfold getWidth. rewrite Hfs.
  apply getWidth_loop_reads; assumption.
Qed.

(** ** Kerning and spacing in [getWidth] *)

(** In exact arithmetic, for every text and every fixed fontSize,
    letterSpacing and tracking, the width with kerning enabled (explicitly,
    or by leaving the key out) minus the width with kerning disabled is the
    sum of the font's kerning values over the consecutive glyph pairs of
    the text, multiplied by fontSize / unitsPerEm.  On doubles the two
    sides differ by rounding. *)
Theorem kerning_difference
    font text fontSize letterSpacing tracking anchor x y attributes :
  let enabled := O.mk fontSize letterSpacing tracking (Some (Some true)) anchor x y attributes in
  let absent := O.mk fontSize letterSpacing tracking None anchor x y attributes in
  let disabled := O.mk fontSize letterSpacing tracking (Some (Some false)) anchor x y attributes in
  getWidth font text enabled - getWidth font text disabled
  == kerningSum font (opentype.stringToGlyphs font text)
     * (orNum fontSize 72 / unitsPerEm font)
  /\ getWidth font text absent = getWidth font text enabled.
Proof.
  intros enabled absent disabled.
  split; [|apply getWidth_reads; reflexivity].
  rewrite !getWidth_closed. subst enabled disabled. unfold kerningOption.
  cbn [O.fontSize O.letterSpacing O.tracking O.kerning truthyBool].
  field. apply unitsPerEm_nonzero.
Qed.



(** ** [getMetrics] *)

(** Evaluates the anchor of a call whose anchor string is a literal: the
    parser and the string comparisons of the two [switch] statements. *)
Ltac resolve_anchor :=
  unfold getMetrics; cbn [O.anchor O.x O.y O.fontSize default];
  repeat match goal with
  | |- context [parseAnchorOption ?s] =>
      let r := eval vm_compute in (parseAnchorOption s) in
      change (parseAnchorOption s) with r
  end;
  cbn [horizontal vertical];
  repeat match goal with
  | |- context [String.eqb ?a ?b] =>
      let r := eval vm_compute in (String.eqb a b) in
      change (String.eqb a b) with r
  end;
  cbn [bind].

(** What a returned record holds. *)
Lemma getMetrics_Return font text options m :
  getMetrics font text options = Return m ->
  Metrics.width m = getWidth font text options
  /\ Metrics.height m = getHeight font (orNum (O.fontSize options) 72)
  /\ Metrics.ascender m
     = opentype.ascender font * ((1 / unitsPerEm font) * orNum (O.fontSize options) 72)
  /\ Metrics.descender m
     = opentype.descender font * ((1 / unitsPerEm font) * orNum (O.fontSize options) 72)
  /\ Metrics.baseline m = Metrics.y m + Metrics.ascender m.
Proof.
  unfold getMetrics.
  destruct (String.eqb (horizontal _) "left");
    [|destruct (String.eqb (horizontal _) "center");
      [|destruct (String.eqb (horizontal _) "right"); [|discriminate]]];
    cbn [bind];
    (destruct (String.eqb (vertical _) "baseline");
      [|destruct (String.eqb (vertical _) "top");
        [|destruct (String.eqb (vertical _) "middle");
          [|destruct (String.eqb (vertical _) "bottom"); [|discriminate]]]]);
    cbn [bind]; intros [= <-]; cbn; repeat split; reflexivity.
Qed.

(** [getMetrics] returns exactly when both resolved keywords have a [case]. *)
Lemma getMetrics_returns_iff font text options :
  (exists m, getMetrics font text options = Return m)
  <-> recognized (parseAnchorOption (default EmptyString (O.anchor options))) = true.
Proof.
  unfold getMetrics, recognized, horizontalKeywords, verticalKeywords.
  destruct (parseAnchorOption _) as [h v]. cbn [horizontal vertical existsb].
  destruct (String.eqb h "left"), (String.eqb h "center"), (String.eqb h "right"),
    (String.eqb v "baseline"), (String.eqb v "top"), (String.eqb v "middle"),
    (String.eqb v "bottom"); cbn [bind orb andb];
    split; intros H; try reflexivity; try discriminate;
    try (eexists; reflexivity); destruct H as [m H]; discriminate.
Qed.

(** C1: the throwing branches of [getMetrics] are reachable.
    [parseAnchorOption] hands the keyword on as it is spelled in the anchor
    string, and the [switch] statements compare it with the lower-case
    literals only: with the anchor "LEFT", and with "Center Middle",
    [getMetrics] throws 'Unknown anchor option', for every font, text and
    other options. *)
Theorem getMetrics_throws_on_capitals
    font text fontSize letterSpacing tracking kerning x y attributes :
  getMetrics font text
    (O.mk fontSize letterSpacing tracking kerning (Some "LEFT") x y attributes)
  = Throw "Unknown anchor option: LEFT"
  /\ getMetrics font text
       (O.mk fontSize letterSpacing tracking kerning (Some "Center Middle") x y attributes)
     = Throw "Unknown anchor option: Center".
Proof. split; resolve_anchor; reflexivity. Qed.



(** In exact arithmetic, a record returned by [getMetrics] satisfies
    baseline == y + ascender and height == ascender - descender, where
    ascender and descender are the font's values scaled by
    fontSize / unitsPerEm; its height is the same for every other text; and
    its width is the same for every other call on the same text whose
    options agree on fontSize, kerning, letterSpacing and tracking.  On
    doubles the height is not always ascender - descender. *)
Theorem metrics_invariants font text options m :
  getMetrics font text options = Return m ->
  Metrics.baseline m == Metrics.y m + Metrics.ascender m
  /\ Metrics.height m == Metrics.ascender m - Metrics.descender m
  /\ Metrics.ascender m
     == opentype.ascender font * (orNum (O.fontSize options) 72 / unitsPerEm font)
  /\ Metrics.descender m
     == opentype.descender font * (orNum (O.fontSize options) 72 / unitsPerEm font)
  /\ (forall text' m',
        getMetrics font text' options = Return m' ->
        Metrics.height m' = Metrics.height m)
  /\ (forall anchor' x' y' attributes' m',
        getMetrics font text
          (O.mk (O.fontSize options) (O.letterSpacing options) (O.tracking options)
             (O.kerning options) anchor' x' y' attributes')
        = Return m' ->
        Metrics.width m' = Metrics.width m).
Proof.
  intros H. destruct (getMetrics_Return _ _ _ _ H) as (Hw & Hh & Ha & Hd & Hb).
  repeat split.
  - rewrite Hb. reflexivity.
  - rewrite Hh, Ha, Hd. unfold getHeight. ring.
  - rewrite Ha. field. apply unitsPerEm_nonzero.
  - rewrite Hd. field. apply unitsPerEm_nonzero.
  - intros text' m' H'. destruct (getMetrics_Return _ _ _ _ H') as (_ & Hh' & _).
    rewrite Hh, Hh'. reflexivity.
  - intros anchor' x' y' attributes' m' H'.
    destruct (getMetrics_Return _ _ _ _ H') as (Hw' & _).
    rewrite Hw, Hw'. apply getWidth_reads; reflexivity.
Qed.

(** C5: for every text, with x and y absent, [getMetrics] returns
    x == -width/2 for the anchor "center" and x == -width for "right",
    y == 0 for "top", y == -height for "bottom" and y == -height/2 for
    "middle", width and height being those of the returned record. *)
Theorem anchor_offsets font text fontSize letterSpacing tracking kerning attributes :
  let call anchor :=
    getMetrics font text
      (O.mk fontSize letterSpacing tracking kerning (Some anchor) None None attributes) in
  (exists m, call "center" = Return m /\ Metrics.x m == - (Metrics.width m / 2))
  /\ (exists m, call "right" = Return m /\ Metrics.x m == - Metrics.width m)
  /\ (exists m, call "top" = Return m /\ Metrics.y m == 0)
  /\ (exists m, call "bottom" = Return m /\ Metrics.y m == - Metrics.height m)
  /\ (exists m, call "middle" = Return m /\ Metrics.y m == - (Metrics.height m / 2)).
Proof.
  intros call. subst call. cbv beta.
  repeat split; eexists; (split; [resolve_anchor; reflexivity|]);
    cbn [Metrics.x Metrics.y Metrics.width Metrics.height orNum];
    unfold Qdiv; ring.
Qed.

(** ** Rendering *)

Lemma append_assoc (a b c : string) : (a ++ b) ++ c = a ++ (b ++ c).
Proof.
  induction a as [|ch a IH]; [reflexivity|].
  change (String ch ((a ++ b) ++ c) = String ch (a ++ (b ++ c))).
  rewrite IH. reflexivity.
Qed.

(** Once [getMetrics] returns, so do [getD], [getPath] and [getSVG]. *)
Lemma rendering_returns toString font text options m :
  getMetrics font text options = Return m ->
  exists d path,
    getD font text options = Return d
    /\ getPath font text options = Return path
    /\ getSVG toString font text options
       = Return ((svgOpen toString (Metrics.width m) (Metrics.height m) ++ path) ++ "</svg>").
Proof.
  intros Hm.
  assert (Hd : exists d, getD font text options = Return d).
  { unfold getD. rewrite Hm. cbn [bind]. eexists. reflexivity. }
  destruct Hd as [d Hd].
  assert (Hp : exists path, getPath font text options = Return path).
  { unfold getPath. rewrite Hd. cbn [bind].
    destruct (negb _); eexists; reflexivity. }
  destruct Hp as [path Hp].
  exists d, path. repeat split; try assumption.
  unfold getSVG. rewrite Hm, Hp. reflexivity.
Qed.

(** C7 as amended.  With an anchor string free of capital letters,
    [getMetrics], [getD], [getPath] and [getSVG] return ([getWidth] always
    does).  For the empty text, of which the font makes no glyphs,
    [getWidth] returns 0 whatever the options are, and [getSVG] writes the
    width attribute with the value 0.  A fontSize of 0 is replaced by the
    default: every operation gives what it gives for the fontSize 72. *)
Theorem degenerate_inputs (toString : Q -> string) font :
  (forall text options,
     capitalFree (default EmptyString (O.anchor options)) = true ->
     exists m d path svg,
       getMetrics font text options = Return m
       /\ getD font text options = Return d
       /\ getPath font text options = Return path
       /\ getSVG toString font text options = Return svg)
  /\ (opentype.stringToGlyphs font EmptyString = [] ->
      forall options,
        getWidth font EmptyString options = 0
        /\ (toString 0 = "0" ->
            capitalFree (default EmptyString (O.anchor options)) = true ->
            exists rest,
              getSVG toString font EmptyString options
              = Return ("<svg " ++ attribute "xmlns" "http://www.w3.org/2000/svg" ++ " "
                          ++ attribute "xmlns:xlink" "http://www.w3.org/1999/xlink" ++ " "
                          ++ attribute "width" "0" ++ rest)))
  /\ (forall text letterSpacing tracking kerning anchor x y attributes,
        let zero := O.mk (Some 0) letterSpacing tracking kerning anchor x y attributes in
        let seventyTwo := O.mk (Some 72) letterSpacing tracking kerning anchor x y attributes in
        getWidth font text zero = getWidth font text seventyTwo
        /\ getMetrics font text zero = getMetrics font text seventyTwo
        /\ getD font text zero = getD font text seventyTwo
        /\ getSVG toString font text zero = getSVG toString font text seventyTwo).
Proof.
  assert (returns : forall text options,
    capitalFree (default EmptyString (O.anchor options)) = true ->
    exists m, getMetrics font text options = Return m).
  { intros text options Hc. apply getMetrics_returns_iff, capitalFree_recognized, Hc. }
  split; [|split].
  - intros text options Hc. destruct (returns text options Hc) as [m Hm].
    destruct (rendering_returns toString _ _ _ _ Hm) as (d & path & Hd & Hp & Hsvg).
    exists m, d, path. eexists. repeat split; eassumption.
  - intros Hglyphs options.
    assert (Hw : getWidth font EmptyString options = 0).
    { unfold getWidth. rewrite Hglyphs. reflexivity. }
    split; [exact Hw|]. intros Hzero Hc.
    destruct (returns EmptyString options Hc) as [m Hm].
    destruct (rendering_returns toString _ _ _ _ Hm) as (d & path & _ & _ & Hsvg).
    destruct (getMetrics_Return _ _ _ _ Hm) as (Hwm & _).
    rewrite Hsvg, Hwm, Hw. unfold svgOpen. rewrite Hzero, !append_assoc.
    eexists. reflexivity.
  - intros text letterSpacing tracking kerning anchor x y attributes zero seventyTwo.
    assert (Hw : getWidth font text zero = getWidth font text seventyTwo)
      by (apply getWidth_reads; reflexivity).
    assert (Hm : getMetrics font text zero = getMetrics font text seventyTwo)
      by (unfold getMetrics; rewrite Hw; reflexivity).
    assert (Hd : getD font text zero = getD font text seventyTwo)
      by (unfold getD; rewrite Hm; reflexivity).
    assert (Hp : getPath font text zero = getPath font text seventyTwo)
      by (unfold getPath; rewrite Hd; reflexivity).
    repeat split; try assumption.
    unfold getSVG. rewrite Hm, Hp. reflexivity.
Qed.

Lemma degenerate_inputs_witness :
  getWidth sampleFont EmptyString O.empty = 0
  /\ exists rest,
       getSVG decimalString sampleFont EmptyString O.empty
       = Return ("<svg " ++ attribute "xmlns" "http://www.w3.org/2000/svg" ++ " "
                   ++ attribute "xmlns:xlink" "http://www.w3.org/1999/xlink" ++ " "
                   ++ attribute "width" "0" ++ rest).
Proof.
  refine (let H := proj1 (proj2 (degenerate_inputs decimalString sampleFont))
                     eq_refl O.empty in
          conj (proj1 H) (proj2 H _ _)); reflexivity.
Defined.

(** C7 with a zero-sized output for the fontSize 0 does not hold: the
    sample font measures "AV" as 82.8 pixels wide, the width at the
    default size. *)
Lemma zero_fontSize_counterexample :
  getWidth sampleFont "AV" (O.mk (Some 0) None None None None None None None) == 828 # 10
  /\ ~ getWidth sampleFont "AV" (O.mk (Some 0) None None None None None None None) == 0.
Proof. split; vm_compute; [reflexivity|discriminate]. Qed.

(** ** [getDebugSVG] and the caller's objects *)

(** C9: [getDebugSVG] leaves every object of the caller's store as it was:
    after the call, whether it returned or threw, the store holds at each
    reference that was in use before the call, the one passed as [options]
    among them, the object that it held before.  The shifted x and y are
    written to the copy, which sits at a reference that was not in use. *)
Theorem getDebugSVG_frame
    (toString : Q -> string) font text (options : option loc)
    (sigma : gmap nat O.t) (l : loc) :
  is_Some (sigma !! l) ->
  (getDebugSVG toString font text options sigma).2 !! l = sigma !! l.
Proof.
  intros Hl. unfold getDebugSVG, alloc.
  assert (fresh_ne : forall s : gmap nat O.t, is_Some (s !! l) -> fresh (dom s) <> l).
  { intros s Hs <-. apply (is_fresh (dom s)), elem_of_dom, Hs. }
  destruct options as [r|].
  - pose proof (fresh_ne sigma Hl) as Hc.
    destruct (getMetrics _ _ _) as [m|e]; [destruct (getPath _ _ _) as [p|e]|];
      cbn [snd]; rewrite !lookup_insert_ne by exact Hc; reflexivity.
  - pose proof (fresh_ne sigma Hl) as Hc0.
    assert (Hl1 : is_Some (<[fresh (dom sigma) := O.empty]> sigma !! l))
      by (rewrite lookup_insert_ne by exact Hc0; exact Hl).
    pose proof (fresh_ne _ Hl1) as Hc1.
    destruct (getMetrics _ _ _) as [m|e]; [destruct (getPath _ _ _) as [p|e]|];
      cbn [snd]; rewrite !lookup_insert_ne by (exact Hc0 || exact Hc1); reflexivity.
Qed.

Lemma getDebugSVG_frame_witness :
  (getDebugSVG decimalString sampleFont "AV" (Some 0%nat)
     {[ 0%nat := callerOptions ]}).2 !! 0%nat
  = Some callerOptions.
Proof.
  refine (eq_trans
            (getDebugSVG_frame decimalString sampleFont "AV" (Some 0%nat)
               {[ 0%nat := callerOptions ]} 0%nat _) _).
  - exists callerOptions. reflexivity.
  - reflexivity.
Defined.

(** The same call, looked at in the store: the caller's object at
    reference 0 is unchanged, the copy at reference 1 holds the shifted
    origin (x moved from 10 to 57.5, y set to 50). *)
Example getDebugSVG_writes_the_copy :
  let sigma' :=
    (getDebugSVG decimalString sampleFont "AV" (Some 0%nat)
       {[ 0%nat := callerOptions ]}).2 in
  sigma' !! 0%nat = Some callerOptions
  /\ exists copy vx vy,
       sigma' !! 1%nat = Some copy
       /\ O.x copy = Some vx /\ vx == 575 # 10
       /\ O.y copy = Some vy /\ vy == 50.
Proof.
  split; [vm_compute; reflexivity|].
  eexists _, _, _. split; [vm_compute; reflexivity|].
  repeat split; reflexivity.
Qed.

(** ** The kerning key: [undefined] is handed on *)

(** C10 as amended.  With the key [kerning] present and [undefined],
    [getWidth] returns what it returns for [kerning: false]; [getD]
    measures the position as for [kerning: false] and hands the value
    [undefined] itself to the font, so that it returns what it returns for
    [kerning: false] when the font reads the flag by its truthiness.  With
    the key left out, [getWidth] and [getD] do what they do for
    [kerning: true].  Present-and-undefined is not absent: for the sample
    font the two give different widths and different paths. *)
Theorem kerning_undefined_is_handed_on
    font text fontSize letterSpacing tracking anchor x y attributes :
  let options kerning :=
    O.mk fontSize letterSpacing tracking kerning anchor x y attributes in
  (getWidth font text (options (Some None))
   = getWidth font text (options (Some (Some false))))
  /\ getD font text (options (Some None))
     = (metrics <- getMetrics font text (options (Some (Some false))) ;;
        Return (opentype.toPathData
                  (opentype.getPath font text
                     (Metrics.x metrics) (Metrics.baseline metrics)
                     (orNum fontSize 72)
                     (opentype.Build_RenderOptions None letterSpacing tracking))))
  /\ (readsKerningByTruthiness font ->
      getD font text (options (Some None))
      = getD font text (options (Some (Some false))))
  /\ getWidth font text (options None) = getWidth font text (options (Some (Some true)))
  /\ getD font text (options None) = getD font text (options (Some (Some true)))
  /\ (exists font' text',
        ~ getWidth font' text' (O.mk None None None (Some None) None None None None)
          == getWidth font' text' O.empty)
  /\ (exists font' text',
        getD font' text' (O.mk None None None (Some None) None None None None)
        <> getD font' text' O.empty).
Proof.
  intros options.
  assert (Hw : getWidth font text (options (Some None))
               = getWidth font text (options (Some (Some false))))
    by (apply getWidth_reads; reflexivity).
  assert (Hw' : getWidth font text (options None)
                = getWidth font text (options (Some (Some true))))
    by (apply getWidth_reads; reflexivity).
  assert (Hm : getMetrics font text (options (Some None))
               = getMetrics font text (options (Some (Some false))))
    by (unfold getMetrics; rewrite Hw; reflexivity).
  assert (Hm' : getMetrics font text (options None)
                = getMetrics font text (options (Some (Some true))))
    by (unfold getMetrics; rewrite Hw'; reflexivity).
  repeat split; try assumption.
  - unfold getD. rewrite Hm. reflexivity.
  - intros Hfont. unfold getD. rewrite Hm.
    destruct (getMetrics font text (options (Some (Some false)))) as [m|e];
      [|reflexivity].
    cbn [bind]. f_equal. f_equal. apply Hfont.
  - unfold getD. rewrite Hm'. reflexivity.
  - exists sampleFont, "AV". vm_compute. discriminate.
  - exists sampleFont, "AV". vm_compute. discriminate.
Qed.

Lemma kerning_undefined_is_handed_on_witness :
  getD sampleFont "AV" (O.mk None None None (Some None) None None None None)
  = getD sampleFont "AV" (O.mk None None None (Some (Some false)) None None None None).
Proof.
  refine (proj1 (proj2 (proj2
            (kerning_undefined_is_handed_on sampleFont "AV"
               None None None None None None None))) _).
  unfold readsKerningByTruthiness. reflexivity.
Defined.

(** C10 with [getD] behaving as for [kerning: false] does not hold for
    every font: a font that applies its own default to an [undefined] flag
    draws the kerned path for [kerning: undefined] and the plain one for
    [kerning: false]. *)
Lemma getD_undefined_counterexample :
  getD defaultingFont "AV" (O.mk None None None (Some None) None None None None)
  = Return "kerned:AV"
  /\ getD defaultingFont "AV" (O.mk None None None (Some (Some false)) None None None None)
     = Return "plain:AV".
Proof. split; vm_compute; reflexivity. Qed.

(** * Further properties of the code *)

(** ** [getMetrics]: when it throws *)

(** The outcome of [getMetrics] in one expression: the error of the
    resolved pair if it has one, else the record, in which the origin is
    moved by the shifts of the two keywords. *)
Lemma getMetrics_outcome font text options :
  getMetrics font text options
  = let a := parseAnchorOption (default EmptyString (O.anchor options)) in
    let fontSize := orNum (O.fontSize options) 72 in
    let width := getWidth font text options in
    let height := getHeight font fontSize in
    let ascender := opentype.ascender font * ((1 / unitsPerEm font) * fontSize) in
    let descender := opentype.descender font * ((1 / unitsPerEm font) * fontSize) in
    match anchorError a with
    | Some e => Throw e
    | None =>
        let x := orNum (O.x options) 0 - horizontalShift (horizontal a) width in
        let y := orNum (O.y options) 0 - verticalShift (vertical a) ascender height in
        Return (Metrics.mk x y (y + ascender) width height ascender descender)
    end.
Proof.
  unfold getMetrics, anchorError, horizontalShift, verticalShift,
    horizontalKeywords, verticalKeywords.
  destruct (parseAnchorOption _) as [h v]. cbn [horizontal vertical existsb].
  destruct (String.eqb_spec h "left") as [->|_];
    [|destruct (String.eqb_spec h "center") as [->|_];
      [|destruct (String.eqb_spec h "right") as [->|_]]];
    cbn [bind orb negb String.eqb Ascii.eqb Bool.eqb]; try reflexivity;
    (destruct (String.eqb_spec v "baseline") as [->|_];
      [|destruct (String.eqb_spec v "top") as [->|_];
        [|destruct (String.eqb_spec v "middle") as [->|_];
          [|destruct (String.eqb_spec v "bottom") as [->|_]]]]);
    cbn [bind orb negb String.eqb Ascii.eqb Bool.eqb]; reflexivity.
Qed.

(** X5: when [getMetrics] throws.  It throws exactly when the resolved
    pair has a keyword without a [case]; the message names that keyword as
    it is spelled, the horizontal one when both are unknown; so the error
    depends on the anchor string alone, not on the font, the text or the
    other options. *)
Theorem getMetrics_throws_iff font text options e :
  (getMetrics font text options = Throw e
   <-> anchorError (parseAnchorOption (default EmptyString (O.anchor options))) = Some e)
  /\ (forall font' text' options',
        O.anchor options' = O.anchor options ->
        getMetrics font text options = Throw e ->
        getMetrics font' text' options' = Throw e).
Proof.
  assert (iff : forall f t o,
    getMetrics f t o = Throw e
    <-> anchorError (parseAnchorOption (default EmptyString (O.anchor o))) = Some e).
  { intros f t o. rewrite getMetrics_outcome. cbv zeta.
    destruct (anchorError _) as [e'|]; split; intros H;
      try discriminate; congruence. }
  split; [apply iff|].
  intros font' text' options' Ha H. apply iff. rewrite Ha. apply iff in H. exact H.
Qed.

Lemma getMetrics_throws_iff_witness :
  getMetrics sampleFont "AV"
    (O.mk None None None None (Some "Right Top") None None None)
  = Throw "Unknown anchor option: Right".
Proof.
  apply (proj1 (getMetrics_throws_iff sampleFont "AV"
                  (O.mk None None None None (Some "Right Top") None None None)
                  "Unknown anchor option: Right")).
  reflexivity.
Defined.

(** ** The parser and the case of letters *)

Lemma canonicalize_of_lowerCaseUnit c :
  JS.canonicalize (lowerCaseUnit c) = JS.canonicalize c.
Proof.
  unfold lowerCaseUnit. destruct (isCapital c) eqn:Hc; [|reflexivity].
  unfold isCapital in Hc. apply andb_true_iff in Hc. destruct Hc as [H1 H2].
  apply Nat.leb_le in H1, H2.
  unfold JS.canonicalize. rewrite nat_ascii_embedding by lia.
  replace ((97 <=? nat_of_ascii c + 32)%nat) with true
    by (symmetry; apply Nat.leb_le; lia).
  replace ((nat_of_ascii c + 32 <=? 122)%nat) with true
    by (symmetry; apply Nat.leb_le; lia).
  replace ((97 <=? nat_of_ascii c)%nat) with false
    by (symmetry; apply Nat.leb_gt; lia).
  cbn [andb]. replace (nat_of_ascii c + 32 - 32)%nat with (nat_of_ascii c) by lia.
  apply ascii_nat_embedding.
Qed.

Lemma matchLiteral_of_toLowerCase pat : forall s,
  JS.matchLiteral pat (toLowerCase s) = option_map toLowerCase (JS.matchLiteral pat s).
Proof.
  induction pat as [|p pat IH]; intros s; [reflexivity|].
  destruct s as [|c s]; [reflexivity|].
  cbn [toLowerCase JS.matchLiteral]. rewrite canonicalize_of_lowerCaseUnit, IH.
  destruct (Ascii.eqb _ _); [|reflexivity].
  destruct (JS.matchLiteral pat s); reflexivity.
Qed.

Lemma matchAlternation_of_toLowerCase alts s :
  JS.matchAlternation alts (toLowerCase s)
  = option_map toLowerCase (JS.matchAlternation alts s).
Proof.
  induction alts as [|a alts IH]; [reflexivity|].
  cbn [JS.matchAlternation]. rewrite matchLiteral_of_toLowerCase.
  destruct (JS.matchLiteral a s); [reflexivity|exact IH].
Qed.

Lemma firstOccurrence_of_toLowerCase alts s :
  firstOccurrence alts (toLowerCase s)
  = option_map toLowerCase (firstOccurrence alts s).
Proof.
  induction s as [|c s IH]; [reflexivity|].
  change (toLowerCase (String c s)) with (String (lowerCaseUnit c) (toLowerCase s)).
  cbn [firstOccurrence].
  change (String (lowerCaseUnit c) (toLowerCase s)) with (toLowerCase (String c s)).
  rewrite matchAlternation_of_toLowerCase.
  destruct (JS.matchAlternation alts (String c s)); [reflexivity|exact IH].
Qed.

(** X8: the parser commutes with lower-casing.  For every anchor string,
    the pair resolved for the lower-cased string is the lower-cased pair
    resolved for the string itself; it consists of keywords that
    [getMetrics] has a [case] for, so with a lower-cased anchor string
    [getMetrics] returns, whatever the string was. *)
Theorem parseAnchorOption_toLowerCase anchor :
  parseAnchorOption (toLowerCase anchor)
  = {| horizontal := toLowerCase (horizontal (parseAnchorOption anchor));
       vertical := toLowerCase (vertical (parseAnchorOption anchor)) |}
  /\ recognized (parseAnchorOption (toLowerCase anchor)) = true
  /\ forall font text fontSize letterSpacing tracking kerning x y attributes,
       exists m,
         getMetrics font text
           (O.mk fontSize letterSpacing tracking kerning
              (Some (toLowerCase anchor)) x y attributes)
         = Return m.
Proof.
  assert (E : parseAnchorOption (toLowerCase anchor)
              = {| horizontal := toLowerCase (horizontal (parseAnchorOption anchor));
                   vertical := toLowerCase (vertical (parseAnchorOption anchor)) |}).
  { destruct (parseAnchorOption_first_occurrence (toLowerCase anchor)) as [Hh Hv].
    destruct (parseAnchorOption_first_occurrence anchor) as [Hh' Hv'].
    destruct (parseAnchorOption (toLowerCase anchor)) as [h v].
    cbn [horizontal vertical] in Hh, Hv. rewrite Hh, Hv, Hh', Hv'.
    rewrite !firstOccurrence_of_toLowerCase.
    destruct (firstOccurrence ["left"; "center"; "right"] anchor),
      (firstOccurrence ["baseline"; "top"; "bottom"; "middle"] anchor);
      reflexivity. }
  assert (R : recognized (parseAnchorOption (toLowerCase anchor)) = true)
    by (rewrite E; apply lowered_keywords_recognized).
  repeat split; [exact E|exact R|].
  intros. apply getMetrics_returns_iff. exact R.
Qed.

(** ** Errors and results of the rendering operations *)

Lemma getMetrics_Throw_rendering toString font text options e :
  getMetrics font text options = Throw e ->
  getD font text options = Throw e
  /\ getPath font text options = Throw e
  /\ getSVG toString font text options = Throw e.
Proof.
  intros H.
  assert (Hd : getD font text options = Throw e) by (unfold getD; rewrite H; reflexivity).
  assert (Hp : getPath font text options = Throw e)
    by (unfold getPath; rewrite Hd; reflexivity).
  repeat split; try assumption. unfold getSVG. rewrite H. reflexivity.
Qed.

(** X9: [getD], [getPath] and [getSVG] add no error of their own.  Each of
    them throws exactly when [getMetrics] throws on the same arguments,
    and then with the same message. *)
Theorem rendering_throws_iff (toString : Q -> string) font text options e :
  (getD font text options = Throw e <-> getMetrics font text options = Throw e)
  /\ (getPath font text options = Throw e <-> getMetrics font text options = Throw e)
  /\ (getSVG toString font text options = Throw e
      <-> getMetrics font text options = Throw e).
Proof.
  destruct (getMetrics font text options) as [m|e'] eqn:Hm.
  - destruct (rendering_returns toString _ _ _ _ Hm) as (d & path & Hd & Hp & Hsvg).
    rewrite Hd, Hp, Hsvg. repeat split; intros H; discriminate.
  - destruct (getMetrics_Throw_rendering toString _ _ _ _ Hm) as (Hd & Hp & Hsvg).
    rewrite Hd, Hp, Hsvg. repeat split; intros [= ->]; reflexivity.
Qed.

Lemma rendering_throws_iff_witness :
  getSVG decimalString sampleFont "AV"
    (O.mk None None None None (Some "TOP") None None None)
  = Throw "Unknown anchor option: TOP".
Proof.
  apply (proj2 (proj2 (rendering_throws_iff decimalString sampleFont "AV"
                         (O.mk None None None None (Some "TOP") None None None)
                         "Unknown anchor option: TOP"))).
  reflexivity.
Defined.

(** ** [getDebugSVG] step by step *)

Lemma getDebugSVG_stages_reference
    (toString : Q -> string) font text (l : loc) (sigma : gmap nat O.t) :
  debugOutcome toString font text (O.jsonCopy (sigma !!! l))
    (getDebugSVG toString font text (Some l) sigma) (fresh (dom sigma)).
Proof.
  unfold debugOutcome, getDebugSVG, alloc.
  rewrite !lookup_total_insert_eq.
  set (copy := O.jsonCopy (sigma !!! l)).
  match goal with
  | |- context [getMetrics font text ?o] =>
      lazymatch o with
      | debugOptions _ => fail
      | _ => change o with (debugOptions copy)
      end
  end.
  destruct (getMetrics font text (debugOptions copy)) as [m|e].
  - rewrite !lookup_total_insert_eq.
    match goal with
    | |- context [getPath font text ?o] =>
        lazymatch o with
        | debugShifted _ _ => fail
        | _ => change o with (debugShifted copy m)
        end
    end.
    split; [destruct (getPath font text (debugShifted copy m)); apply lookup_insert_eq|].
    destruct (getPath font text (debugShifted copy m)) as [path|e]; [|reflexivity].
    cbn [fst]. unfold guideLines. rewrite !append_assoc. reflexivity.
  - split; [reflexivity|apply lookup_insert_eq].
Qed.

Lemma getDebugSVG_stages (toString : Q -> string) font text options (sigma : gmap nat O.t) :
  exists c : loc,
    sigma !! c = None
    /\ debugOutcome toString font text (O.jsonCopy (debugArgument options sigma))
         (getDebugSVG toString font text options sigma) c.
Proof.
  destruct options as [l|].
  - exists (fresh (dom sigma)). split; [apply not_elem_of_dom, is_fresh|].
    apply getDebugSVG_stages_reference.
  - set (c0 := fresh (dom sigma)). set (sigma0 := <[c0 := O.empty]> sigma).
    exists (fresh (dom sigma0)). split.
    + assert (H : sigma0 !! fresh (dom sigma0) = None)
        by apply not_elem_of_dom, is_fresh.
      unfold sigma0 in H at 1. apply lookup_insert_None in H. tauto.
    + change (getDebugSVG toString font text None sigma)
        with (getDebugSVG toString font text (Some c0) sigma0).
      replace (O.jsonCopy (debugArgument None sigma))
        with (O.jsonCopy (sigma0 !!! c0))
        by (unfold sigma0; rewrite lookup_total_insert_eq; reflexivity).
      apply getDebugSVG_stages_reference.
Qed.

Lemma getMetrics_Throw_anchorError font text options e :
  getMetrics font text options = Throw e
  <-> anchorError (parseAnchorOption (default EmptyString (O.anchor options))) = Some e.
Proof.
  rewrite getMetrics_outcome. cbv zeta.
  destruct (anchorError _) as [e'|]; split; intros H; try discriminate; congruence.
Qed.

(** Two calls of [getMetrics] whose options differ in the origin only. *)
Lemma getMetrics_origin font text options options' m :
  orNum (O.fontSize options') 72 = orNum (O.fontSize options) 72 ->
  truthyBool (kerningOption options') = truthyBool (kerningOption options) ->
  O.letterSpacing options' = O.letterSpacing options ->
  O.tracking options' = O.tracking options ->
  O.anchor options' = O.anchor options ->
  getMetrics font text options = Return m ->
  exists m',
    getMetrics font text options' = Return m'
    /\ Metrics.x m' == Metrics.x m + (orNum (O.x options') 0 - orNum (O.x options) 0)
    /\ Metrics.y m' == Metrics.y m + (orNum (O.y options') 0 - orNum (O.y options) 0)
    /\ Metrics.width m' = Metrics.width m
    /\ Metrics.height m' = Metrics.height m.
Proof.
  intros Hfs Hk Hls Htr Ha. rewrite !getMetrics_outcome. cbv zeta.
  rewrite (getWidth_reads font text options' options) by assumption.
  rewrite Hfs, Ha.
  generalize (parseAnchorOption (default EmptyString (O.anchor options))).
  intros a. destruct (anchorError a); [discriminate|]. intros [= <-].
  eexists. split; [reflexivity|].
  cbn [Metrics.x Metrics.y Metrics.width Metrics.height].
  repeat split; try reflexivity; ring.
Qed.

(** X12: [getDebugSVG] sees its argument through the JSON copy only.  Two
    calls whose argument objects have the same copy return the same
    document or throw the same error, whatever the stores are.  So a
    [kerning] key with the value [undefined], which the copy drops, gives
    what the missing key gives (kerning enabled), and a call without
    options gives what a call with an empty object gives. *)
Theorem getDebugSVG_reads_the_copy (toString : Q -> string) font text :
  (forall options options' (sigma sigma' : gmap nat O.t),
     O.jsonCopy (debugArgument options sigma)
     = O.jsonCopy (debugArgument options' sigma') ->
     (getDebugSVG toString font text options sigma).1
     = (getDebugSVG toString font text options' sigma').1)
  /\ (forall (sigma sigma' : gmap nat O.t) l l'
        fontSize letterSpacing tracking anchor x y attributes,
        sigma !! l
        = Some (O.mk fontSize letterSpacing tracking (Some None) anchor x y attributes) ->
        sigma' !! l'
        = Some (O.mk fontSize letterSpacing tracking None anchor x y attributes) ->
        (getDebugSVG toString font text (Some l) sigma).1
        = (getDebugSVG toString font text (Some l') sigma').1)
  /\ (forall (sigma sigma' : gmap nat O.t) l,
        sigma' !! l = Some O.empty ->
        (getDebugSVG toString font text None sigma).1
        = (getDebugSVG toString font text (Some l) sigma').1).
Proof.
  assert (main : forall options options' (sigma sigma' : gmap nat O.t),
     O.jsonCopy (debugArgument options sigma)
     = O.jsonCopy (debugArgument options' sigma') ->
     (getDebugSVG toString font text options sigma).1
     = (getDebugSVG toString font text options' sigma').1).
  { intros options options' sigma sigma' E.
    destruct (getDebugSVG_stages toString font text options sigma) as (c & _ & H).
    destruct (getDebugSVG_stages toString font text options' sigma') as (c' & _ & H').
    unfold debugOutcome in H, H'. rewrite <- E in H'.
    destruct (getMetrics font text _) as [m|e].
    - destruct H as [_ H], H' as [_ H'].
      destruct (getPath font text _) as [path|e]; congruence.
    - destruct H as [H _], H' as [H' _]. congruence. }
  split; [exact main|]. split.
  - intros sigma sigma' l l' fontSize letterSpacing tracking anchor x y attributes H H'.
    apply main. cbn [debugArgument].
    rewrite (lookup_total_correct _ _ _ H), (lookup_total_correct _ _ _ H').
    reflexivity.
  - intros sigma sigma' l H. apply main. cbn [debugArgument].
    rewrite (lookup_total_correct _ _ _ H). reflexivity.
Qed.

Lemma getDebugSVG_reads_the_copy_witness :
  (getDebugSVG decimalString sampleFont "AV" (Some 0%nat)
     {[ 0%nat := O.mk None None None (Some None) None None None None ]}).1
  = (getDebugSVG decimalString sampleFont "AV" (Some 3%nat)
       {[ 3%nat := O.empty ]}).1.
Proof.
  apply (proj1 (proj2 (getDebugSVG_reads_the_copy decimalString sampleFont "AV"))
           {[ 0%nat := O.mk None None None (Some None) None None None None ]}
           {[ 3%nat := O.empty ]} 0%nat 3%nat None None None None None None None);
    reflexivity.
Defined.

(** X14: [getDebugSVG] throws exactly when [getMetrics] throws on the
    object it is called with (the empty object when called without
    options), and with the same message: copying the options and shifting
    the origin add no error and hide none. *)
Theorem getDebugSVG_throws_iff
    (toString : Q -> string) font text options (sigma : gmap nat O.t) e :
  (getDebugSVG toString font text options sigma).1 = Throw e
  <-> getMetrics font text (debugArgument options sigma) = Throw e.
Proof.
  destruct (getDebugSVG_stages toString font text options sigma) as (c & _ & H).
  unfold debugOutcome in H.
  set (o := debugArgument options sigma) in *.
  rewrite (getMetrics_Throw_anchorError font text o e).
  change (O.anchor o) with (O.anchor (debugOptions (O.jsonCopy o))).
  rewrite <- (getMetrics_Throw_anchorError font text (debugOptions (O.jsonCopy o)) e).
  destruct (getMetrics font text (debugOptions (O.jsonCopy o))) as [m|e'] eqn:Hm.
  - destruct H as [_ H].
    destruct (getMetrics_origin font text (debugOptions (O.jsonCopy o))
                (debugShifted (O.jsonCopy o) m) m)
      as (m' & Hm' & _); try reflexivity; [exact Hm|].
    destruct (rendering_returns toString _ _ _ _ Hm') as (d & path & _ & Hp & _).
    rewrite Hp in H. rewrite H. split; intros; discriminate.
  - destruct H as [H _]. rewrite H. split; intros [= ->]; reflexivity.
Qed.

Lemma getDebugSVG_throws_iff_witness :
  (getDebugSVG decimalString sampleFont "AV" (Some 0%nat)
     {[ 0%nat := O.mk None None None None (Some "Bottom") None None None ]}).1
  = Throw "Unknown anchor option: Bottom".
Proof.
  apply (proj2 (getDebugSVG_throws_iff decimalString sampleFont "AV" (Some 0%nat)
                  {[ 0%nat := O.mk None None None None (Some "Bottom") None None None ]}
                  "Unknown anchor option: Bottom")).
  reflexivity.
Defined.

(** ** [getPath] and [getSVG] *)

Lemma attribute_not_empty name value :
  String.eqb (attribute name value) EmptyString = false.
Proof. destruct name; reflexivity. Qed.

Lemma join_attributes_not_empty kv (rest : list (string * string)) :
  String.eqb
    (JS.join " " (map (fun kv => attribute (fst kv) (snd kv)) (kv :: rest)))
    EmptyString
  = false.
Proof.
  cbn [map JS.join]. destruct kv as [name value]. cbn [fst snd].
  destruct (map _ rest); [apply attribute_not_empty|].
  destruct name; reflexivity.
Qed.

(** X10: the attributes of the path element.  When [getD] returns [d]:
    without an [attributes] object, or with one that has no keys, [getPath]
    returns the element with the attribute d alone; with an object that has
    at least one key, even with empty names or values, it returns the
    element in which the attributes, in the order of the keys and
    separated by one space, come before d. *)
Theorem getPath_attributes font text options d :
  getD font text options = Return d ->
  ((O.attributes options = None \/ O.attributes options = Some []) ->
   getPath font text options = Return ("<path " ++ attribute "d" d ++ "/>"))
  /\ (forall kv rest,
        O.attributes options = Some (kv :: rest) ->
        getPath font text options
        = Return ("<path "
                    ++ JS.join " " (map (fun kv => attribute (fst kv) (snd kv)) (kv :: rest))
                    ++ " " ++ attribute "d" d ++ "/>")).
Proof.
  intros Hd. unfold getPath. rewrite Hd. cbn [bind]. split.
  - intros [-> | ->]; reflexivity.
  - intros kv rest ->. cbn [from_option id].
    rewrite join_attributes_not_empty. reflexivity.
Qed.

Lemma getPath_attributes_witness :
  getPath sampleFont "AV"
    (O.mk None None None None None None None (Some [("fill", "red"); ("id", "t")]))
  = Return ("<path " ++ attribute "fill" "red" ++ " " ++ attribute "id" "t"
              ++ " " ++ attribute "d" "kerned:AV" ++ "/>").
Proof.
  refine (eq_trans
    (proj2 (getPath_attributes sampleFont "AV"
              (O.mk None None None None None None None (Some [("fill", "red"); ("id", "t")]))
              "kerned:AV" _) ("fill", "red") [("id", "t")] eq_refl) _);
    reflexivity.
Defined.

(** X11: the document of [getSVG].  [getSVG] returns exactly when the
    resolved anchor keywords are known to [getMetrics]; the document is
    then the opening tag with the width of [getWidth] and the height of
    [getHeight] at the effective fontSize, the element of [getPath], and
    the closing tag: the origin and the anchor move the path, not the size
    of the document. *)
Theorem getSVG_document (toString : Q -> string) font text options :
  ((exists svg, getSVG toString font text options = Return svg)
   <-> recognized (parseAnchorOption (default EmptyString (O.anchor options))) = true)
  /\ (forall svg,
        getSVG toString font text options = Return svg ->
        exists path,
          getPath font text options = Return path
          /\ svg = svgOpen toString (getWidth font text options)
                     (getHeight font (orNum (O.fontSize options) 72))
                   ++ path ++ "</svg>").
Proof.
  split.
  - rewrite <- (getMetrics_returns_iff font text options). split.
    + intros [svg H]. destruct (getMetrics font text options) as [m|e] eqn:Hm;
        [eexists; reflexivity|].
      destruct (getMetrics_Throw_rendering toString _ _ _ _ Hm) as (_ & _ & H').
      congruence.
    + intros [m Hm].
      destruct (rendering_returns toString _ _ _ _ Hm) as (d & path & _ & _ & H).
      eexists. exact H.
  - intros svg H. destruct (getMetrics font text options) as [m|e] eqn:Hm.
    + destruct (rendering_returns toString _ _ _ _ Hm) as (d & path & _ & Hp & H').
      destruct (getMetrics_Return _ _ _ _ Hm) as (Hw & Hh & _).
      exists path. split; [exact Hp|].
      rewrite H' in H. injection H as <-. rewrite Hw, Hh, append_assoc. reflexivity.
    + destruct (getMetrics_Throw_rendering toString _ _ _ _ Hm) as (_ & _ & H').
      congruence.
Qed.

Lemma getSVG_document_witness :
  exists svg path,
    getSVG decimalString sampleFont "AV" callerOptions = Return svg
    /\ getPath sampleFont "AV" callerOptions = Return path
    /\ svg = svgOpen decimalString (getWidth sampleFont "AV" callerOptions)
               (getHeight sampleFont (orNum (O.fontSize callerOptions) 72))
             ++ path ++ "</svg>".
Proof.
  assert (H : exists svg, getSVG decimalString sampleFont "AV" callerOptions = Return svg)
    by (eexists; vm_compute; reflexivity).
  destruct H as [svg H].
  destruct (proj2 (getSVG_document decimalString sampleFont "AV" callerOptions) svg H)
    as (path & Hp & E).
  exists svg, path. repeat split; assumption.
Defined.

(** ** Font acquisition *)

(** X15: how the promise of [load] is settled.  It is resolved only when
    [opentype.load] reports no error and delivers a font, and then with an
    instance whose [getFont] is that font; a reported error rejects the
    promise with that error even when a font is delivered too; no error
    and no font reject it with 'Font not found'. *)
Theorem load_settles fetch url :
  (forall instance,
     TextToSVG.load fetch url = TextToSVG.Resolved instance
     <-> fst (fetch url) = None
         /\ snd (fetch url) = Some (TextToSVG.getFont instance))
  /\ (forall e font,
        fetch url = (Some e, font) ->
        TextToSVG.load fetch url = TextToSVG.Rejected e)
  /\ (fetch url = (None, None) ->
      TextToSVG.load fetch url = TextToSVG.Rejected "Font not found").
Proof.
  unfold TextToSVG.load, TextToSVG.load_callback.
  destruct (fetch url) as [[e|] [font|]]; cbn [fst snd]; (split; [|split]).
  all: try (intros e0 font0 [= <- <-]; reflexivity).
  all: try (intros e0 font0 [=]).
  all: try (intros [=]).
  all: try reflexivity.
  all: intros instance; split; [intros [=]|intros [[=] [=]]].
  - subst instance. split; reflexivity.
  - subst font. destruct instance. reflexivity.
Qed.

Lemma load_settles_witness :
  TextToSVG.load (fun _ => (Some "404", Some sampleFont)) "font.otf"
  = TextToSVG.Rejected "404".
Proof.
  apply (proj1 (proj2 (load_settles (fun _ => (Some "404", Some sampleFont)) "font.otf"))
           "404" (Some sampleFont)).
  reflexivity.
Defined.

(** * The numeric methods on doubles *)

Section OnDoubles.

Import PrimFloat.
Local Open Scope float_scope.

Lemma double_getWidth_loop_reads
    font options options' fontSize kerning fontScale glyphs width :
  Double.Options.letterSpacing options = Double.Options.letterSpacing options' ->
  Double.Options.tracking options = Double.Options.tracking options' ->
  Double.getWidth_loop font options fontSize kerning fontScale glyphs width
  = Double.getWidth_loop font options' fontSize kerning fontScale glyphs width.
Proof.
  intros Hls Htr. revert width.
  induction glyphs as [|glyph rest IH]; intros width; [reflexivity|].
  cbn [Double.getWidth_loop]. rewrite Hls, Htr. apply IH.
Qed.

(** What a record returned on doubles holds. *)
Lemma double_getMetrics_Return font text options m :
  Double.getMetrics font text options = Return m ->
  Double.Metrics.width m = Double.getWidth font text options
  /\ Double.Metrics.height m
     = Double.getHeight font (Double.orNum (Double.Options.fontSize options) 72)
  /\ Double.Metrics.ascender m
     = Double.ascender font
       * ((1 / Double.unitsPerEm font)
          * Double.orNum (Double.Options.fontSize options) 72)
  /\ Double.Metrics.descender m
     = Double.descender font
       * ((1 / Double.unitsPerEm font)
          * Double.orNum (Double.Options.fontSize options) 72)
  /\ Double.Metrics.baseline m
     = Double.Metrics.y m + Double.Metrics.ascender m.
Proof.
  unfold Double.getMetrics.
  destruct (String.eqb (horizontal _) "left");
    [|destruct (String.eqb (horizontal _) "center");
      [|destruct (String.eqb (horizontal _) "right"); [|discriminate]]];
    cbn [bind];
    (destruct (String.eqb (vertical _) "baseline");
      [|destruct (String.eqb (vertical _) "top");
        [|destruct (String.eqb (vertical _) "middle");
          [|destruct (String.eqb (vertical _) "bottom"); [|discriminate]]]]);
    cbn [bind]; intros [= <-]; repeat split; reflexivity.
Qed.

(** C4 as amended, on doubles.  In a record returned by [getMetrics],
    baseline is the double y + ascender; height is the double
    (font.ascender - font.descender) * fontScale, ascender and descender
    are font.ascender * fontScale and font.descender * fontScale, with
    fontScale = (1 / unitsPerEm) * fontSize, each rounded on its own; the
    height is the same for every other text; and the width is the same for
    every other call on the same text whose options agree on fontSize,
    kerning, letterSpacing and tracking, whatever their anchor, x, y and
    attributes are. *)
Theorem double_metrics_relations font text options m :
  Double.getMetrics font text options = Return m ->
  let fontScale :=
    (1 / Double.unitsPerEm font)
    * Double.orNum (Double.Options.fontSize options) 72 in
  Double.Metrics.baseline m = Double.Metrics.y m + Double.Metrics.ascender m
  /\ Double.Metrics.height m
     = (Double.ascender font - Double.descender font) * fontScale
  /\ Double.Metrics.ascender m = Double.ascender font * fontScale
  /\ Double.Metrics.descender m = Double.descender font * fontScale
  /\ (forall text' m',
        Double.getMetrics font text' options = Return m' ->
        Double.Metrics.height m' = Double.Metrics.height m)
  /\ (forall anchor' x' y' attributes' m',
        Double.getMetrics font text
          (Double.Options.mk (Double.Options.fontSize options)
             (Double.Options.letterSpacing options) (Double.Options.tracking options)
             (Double.Options.kerning options) anchor' x' y' attributes')
        = Return m' ->
        Double.Metrics.width m' = Double.Metrics.width m).
Proof.
  intros H fontScale.
  destruct (double_getMetrics_Return _ _ _ _ H) as (Hw & Hh & Ha & Hd & Hb).
  repeat split; try assumption.
  - intros text' m' H'.
    destruct (double_getMetrics_Return _ _ _ _ H') as (_ & Hh' & _).
    rewrite Hh, Hh'. reflexivity.
  - intros anchor' x' y' attributes' m' H'.
    destruct (double_getMetrics_Return _ _ _ _ H') as (Hw' & _).
    rewrite Hw, Hw'. unfold Double.getWidth.
    apply double_getWidth_loop_reads; reflexivity.
Qed.

Lemma double_metrics_relations_witness :
  exists m,
    Double.getMetrics Double.sampleFont "AV"
      (Double.Options.mk (Some 7) None None None (Some "center top") None None None)
    = Return m
    /\ Double.Metrics.baseline m = Double.Metrics.y m + Double.Metrics.ascender m
    /\ Double.Metrics.height m = 7.
Proof.
  eexists. split; [vm_compute; reflexivity|]. split.
  - refine (proj1 (double_metrics_relations Double.sampleFont "AV"
                     (Double.Options.mk (Some 7) None None None
                        (Some "center top") None None None) _ _));
      vm_compute; reflexivity.
  - refine (eq_trans
              (proj1 (proj2 (double_metrics_relations Double.sampleFont "AV"
                               (Double.Options.mk (Some 7) None None None
                                  (Some "center top") None None None) _ _))) _);
      vm_compute; reflexivity.
Defined.

(** C4 with height == ascender - descender does not hold on doubles: for
    the sample font (1000 units per em, ascender 800, descender -200) at
    the fontSize 7 the height is 7, the ascender 5.6000000000000005 and
    the descender -1.4000000000000001, whose difference is
    7.000000000000001. *)
Lemma double_height_counterexample :
  exists m,
    Double.getMetrics Double.sampleFont "AV"
      (Double.Options.mk (Some 7) None None None None None None None)
    = Return m
    /\ Double.Metrics.height m = 7
    /\ (Double.Metrics.height m
        =? Double.Metrics.ascender m - Double.Metrics.descender m) = false.
Proof. eexists. repeat split; vm_compute; reflexivity. Qed.

(** The loop is the running total of its addends. *)
Lemma double_getWidth_loop_runningTotal
    font options fontSize kerning fontScale glyphs width :
  Double.getWidth_loop font options fontSize kerning fontScale glyphs width
  = Double.runningTotal width
      (Double.addends font (Double.Options.letterSpacing options)
         (Double.Options.tracking options) fontSize fontScale
         (truthyBool kerning) glyphs).
Proof.
  revert width. induction glyphs as [|glyph rest IH]; intros width; [reflexivity|].
  cbn [Double.getWidth_loop Double.addends]. rewrite IH. clear IH.
  unfold Double.runningTotal. rewrite !fold_left_app. f_equal.
  unfold Double.ifTruthy.
  destruct (Double.advanceWidth glyph) as [a|]; [destruct (Double.truthy a)|];
    (destruct (Double.Options.letterSpacing options) as [ls|];
       [destruct (Double.truthy ls)|]);
    (destruct (Double.Options.tracking options) as [tr|];
       [destruct (Double.truthy tr)|]);
    destruct rest as [|next rest']; destruct (truthyBool kerning); reflexivity.
Qed.

Lemma double_addends_without_kerning
    font letterSpacing tracking fontSize fontScale glyphs :
  Double.addends font letterSpacing tracking fontSize fontScale false glyphs
  = List.filter (fun a => negb (Double.isKerning a))
      (Double.addends font letterSpacing tracking fontSize fontScale true glyphs).
Proof.
  induction glyphs as [|glyph rest IH]; [reflexivity|].
  cbn [Double.addends]. rewrite !List.filter_app, <- IH. clear IH.
  unfold Double.ifTruthy.
  destruct (Double.advanceWidth glyph) as [a|]; [destruct (Double.truthy a)|];
    (destruct letterSpacing as [ls|]; [destruct (Double.truthy ls)|]);
    (destruct tracking as [tr|]; [destruct (Double.truthy tr)|]);
    destruct rest as [|next rest']; reflexivity.
Qed.

Lemma double_kerning_addends
    font letterSpacing tracking fontSize fontScale glyphs :
  List.filter Double.isKerning
    (Double.addends font letterSpacing tracking fontSize fontScale true glyphs)
  = map (fun pair =>
           Double.Kerning (Double.getKerningValue font (fst pair) (snd pair) * fontScale))
      (Double.consecutivePairs glyphs).
Proof.
  induction glyphs as [|glyph rest IH]; [reflexivity|].
  cbn [Double.addends]. rewrite !List.filter_app, IH. clear IH.
  unfold Double.ifTruthy.
  destruct (Double.advanceWidth glyph) as [a|]; [destruct (Double.truthy a)|];
    (destruct letterSpacing as [ls|]; [destruct (Double.truthy ls)|]);
    (destruct tracking as [tr|]; [destruct (Double.truthy tr)|]);
    destruct rest as [|next rest']; reflexivity.
Qed.

(** C6 as amended, on doubles.  For every text and every fixed fontSize,
    letterSpacing and tracking, the width with kerning enabled (explicitly,
    or by leaving the key out) and the width with kerning disabled are the
    running totals, added up from 0 in the order of the glyphs with every
    addition rounded, of two lists of addends: the list for kerning
    disabled is the list for kerning enabled without its kerning addends,
    and these are, in order, the font's kerning values of the consecutive
    glyph pairs (i, i+1), each multiplied by
    fontScale = (1 / unitsPerEm) * fontSize. *)
Theorem double_kerning_contributions
    font text fontSize letterSpacing tracking anchor x y attributes :
  let enabled :=
    Double.Options.mk fontSize letterSpacing tracking (Some (Some true))
      anchor x y attributes in
  let absent :=
    Double.Options.mk fontSize letterSpacing tracking None anchor x y attributes in
  let disabled :=
    Double.Options.mk fontSize letterSpacing tracking (Some (Some false))
      anchor x y attributes in
  let glyphs := Double.stringToGlyphs font text in
  let size := Double.orNum fontSize 72 in
  let fontScale := (1 / Double.unitsPerEm font) * size in
  let addends := Double.addends font letterSpacing tracking size fontScale in
  Double.getWidth font text enabled = Double.runningTotal 0 (addends true glyphs)
  /\ Double.getWidth font text absent = Double.getWidth font text enabled
  /\ Double.getWidth font text disabled = Double.runningTotal 0 (addends false glyphs)
  /\ addends false glyphs
     = List.filter (fun a => negb (Double.isKerning a)) (addends true glyphs)
  /\ List.filter Double.isKerning (addends true glyphs)
     = map (fun pair =>
              Double.Kerning
                (Double.getKerningValue font (fst pair) (snd pair) * fontScale))
         (Double.consecutivePairs glyphs).
Proof.
  intros enabled absent disabled glyphs size fontScale addends.
  repeat split.
  - apply double_getWidth_loop_runningTotal.
  - unfold Double.getWidth. apply double_getWidth_loop_reads; reflexivity.
  - apply double_getWidth_loop_runningTotal.
  - apply double_addends_without_kerning.
  - apply double_kerning_addends.
Qed.

(** The addends of "AV" at the default size for the sample font. *)
Example double_addends_AV :
  Double.addends Double.sampleFont None None 72 ((1 / 1000) * 72) true
    (Double.stringToGlyphs Double.sampleFont "AV")
  = [Double.Advance (600 * ((1 / 1000) * 72));
     Double.Kerning (-50 * ((1 / 1000) * 72));
     Double.Advance (600 * ((1 / 1000) * 72))].
Proof. vm_compute. reflexivity. Qed.

(** C6 with the difference of the two widths equal to the kerning sum
    times fontSize / unitsPerEm does not hold on doubles: for the sample
    font and "AV" at the default size the widths are 82.80000000000001 and
    86.4, their difference is -3.5999999999999943, and the kerning sum -50
    times the scale is -3.5999999999999996 (with the scale 72 / 1000) or
    -3.6000000000000005 (with the scale (1 / 1000) * 72 of the code). *)
Lemma double_kerning_counterexample :
  let enabled := Double.Options.mk None None None (Some (Some true)) None None None None in
  let disabled := Double.Options.mk None None None (Some (Some false)) None None None None in
  let difference :=
    Double.getWidth Double.sampleFont "AV" enabled
    - Double.getWidth Double.sampleFont "AV" disabled in
  let kerningSum :=
    fold_left
      (fun sum pair => sum + Double.getKerningValue Double.sampleFont (fst pair) (snd pair))
      (Double.consecutivePairs (Double.stringToGlyphs Double.sampleFont "AV")) 0 in
  kerningSum = -50
  /\ (difference =? kerningSum * (72 / 1000)) = false
  /\ (difference =? kerningSum * ((1 / 1000) * 72)) = false.
Proof. repeat split; vm_compute; reflexivity. Qed.

End OnDoubles.
